(** * SS12000 client: request construction and dispatch

    A shallow embedding of [ss12000client.py] (class [SS12000Client]):
    the generic [_request] dispatcher and the resource methods that turn
    keyword arguments into query parameters and JSON bodies.

    Python dictionaries keep insertion order, and the order of the query
    parameters and of the JSON body members is the order of insertion, so
    the dictionaries the client builds are modelled as ordered association
    lists with Python's assignment semantics ([od_set]).  The keyword
    dictionary [**params] is only ever read with [.get], so it is a finite
    map ([gmap string pyval]). *)

From Stdlib Require Import String Ascii List ZArith Bool Lia.
From stdpp Require Import base gmap strings list fin_maps.
Import ListNotations.

Local Open Scope string_scope.
Local Open Scope list_scope.

Set Warnings "-register-all".

(** ** Python values *)

(** The values that flow through the client: arguments of the methods and
    decoded JSON documents.  Floating point numbers are not modelled. *)
Inductive pyval : Type :=
| PNone
| PBool (b : bool)
| PInt (z : Z)
| PStr (s : string)
| PList (l : list pyval)
| PDict (d : list (string * pyval)).

(** An insertion-ordered dictionary with string keys. *)
Abbreviation odict := (list (string * pyval)).

(** [v is None] *)
Definition is_None (v : pyval) : bool :=
  match v with PNone => true | _ => false end.

(** Truth value testing, as done by [if v:]. *)
Definition truthy (v : pyval) : bool :=
  match v with
  | PNone => false
  | PBool b => b
  | PInt z => negb (z =? 0)%Z
  | PStr s => negb (s =? "")%string
  | PList l => match l with [] => false | _ => true end
  | PDict d => match d with [] => false | _ => true end
  end.

(** ** Ordered dictionaries *)

(** [d[k] = v]: an existing key keeps its position, a new key goes last. *)
Fixpoint od_set (k : string) (v : pyval) (d : odict) : odict :=
  match d with
  | [] => [(k, v)]
  | (k', v') :: d' =>
      if (k =? k')%string then (k', v) :: d' else (k', v') :: od_set k v d'
  end.

(** [d.get(k)] as an option: [None] when the key is missing. *)
Fixpoint od_get (k : string) (d : odict) : option pyval :=
  match d with
  | [] => None
  | (k', v) :: d' => if (k =? k')%string then Some v else od_get k d'
  end.

(** [d.keys()] *)
Definition keys (d : odict) : list string := map fst d.

(** A dictionary display [{k1: v1, ..., kn: vn}]: the items are inserted
    from left to right. *)
Definition dict_literal (items : list (string * pyval)) : odict :=
  fold_left (fun d kv => od_set (fst kv) (snd kv) d) items [].

(** [{k: v for k, v in d.items() if v is not None}] *)
Definition drop_None (d : odict) : odict :=
  dict_literal (List.filter (fun kv => negb (is_None (snd kv))) d).

(** ** Keyword arguments *)

(** [params.get(name)]: the value passed under [name], [None] when the
    keyword was not passed. *)
Definition kwargs_get (params : gmap string pyval) (name : string) : pyval :=
  match params !! name with
  | Some v => v
  | None => PNone
  end.

(** ** Joining a path against the base URL

    [urllib.parse.urljoin] of the Python standard library, for the URLs
    the client handles: [scheme://netloc/path] bases and path references.
    The model covers the strings of [url_modelled] below: printable
    ASCII without space and without [?], [#], [;], [[] and []].  On
    other strings the library splits off a query, a fragment or
    parameters, removes tabs, line ends and leading blanks, or raises
    [ValueError] for a malformed bracketed host; none of this is
    modelled, and the statements about the URL of a request assume
    [url_modelled] of the base URL and of the path. *)

(** [s.split(sep)] for a one-character separator. *)
Fixpoint split_on (sep : ascii) (s : string) : list string :=
  match s with
  | EmptyString => [""]
  | String c s' =>
      if Ascii.eqb c sep then "" :: split_on sep s'
      else match split_on sep s' with
           | [] => [String c ""]
           | h :: t => String c h :: t
           end
  end.

(** The longest prefix of [s] whose characters satisfy [p], and the rest. *)
Fixpoint span (p : ascii -> bool) (s : string) : string * string :=
  match s with
  | EmptyString => ("", "")
  | String c s' =>
      if p c then let '(a, b) := span p s' in (String c a, b)
      else ("", s)
  end.

Definition string_drop (n : nat) (s : string) : string :=
  substring n (String.length s - n) s.

Definition is_alpha (c : ascii) : bool :=
  let n := nat_of_ascii c in
  (((65 <=? n) && (n <=? 90)) || ((97 <=? n) && (n <=? 122)))%nat.

Definition is_digit (c : ascii) : bool :=
  let n := nat_of_ascii c in ((48 <=? n) && (n <=? 57))%nat.

(** [scheme_chars]: letters, digits and [+-.] *)
Definition scheme_char (c : ascii) : bool :=
  is_alpha c || is_digit c
  || Ascii.eqb c "+" || Ascii.eqb c "-" || Ascii.eqb c ".".

Definition lower_char (c : ascii) : ascii :=
  let n := nat_of_ascii c in
  if ((65 <=? n) && (n <=? 90))%nat then ascii_of_nat (n + 32) else c.

Fixpoint lower (s : string) : string :=
  match s with
  | EmptyString => ""
  | String c s' => String (lower_char c) (lower s')
  end.

Definition uses_relative : list string :=
  [""; "ftp"; "http"; "gopher"; "nntp"; "imap"; "wais"; "file"; "https";
   "shttp"; "mms"; "prospero"; "rtsp"; "rtsps"; "rtspu"; "sftp"; "svn";
   "svn+ssh"; "ws"; "wss"].

Definition uses_netloc : list string :=
  [""; "ftp"; "http"; "gopher"; "nntp"; "telnet"; "imap"; "wais"; "file";
   "mms"; "https"; "shttp"; "snews"; "prospero"; "rtsp"; "rtsps"; "rtspu";
   "rsync"; "svn"; "svn+ssh"; "sftp"; "nfs"; "git"; "git+ssh"; "ws"; "wss";
   "itms-services"].

Definition str_in (s : string) (l : list string) : bool :=
  existsb (String.eqb s) l.

Record url_parts : Type := UrlParts {
  u_scheme : string;
  u_netloc : string;
  u_path : string
}.

(** [urlparse(url, scheme)]: an initial run of scheme characters that
    starts with a letter and is followed by [:] is the scheme, lowered;
    after [//] the network location runs up to the next [/]. *)
Definition urlparse (url default_scheme : string) : url_parts :=
  let '(pre, rest) := span scheme_char url in
  let '(scheme, url1) :=
    match pre, rest with
    | String c _, String ":" rest' =>
        if is_alpha c then (lower pre, rest') else (default_scheme, url)
    | _, _ => (default_scheme, url)
    end in
  if String.prefix "//" url1 then
    let '(netloc, path) :=
      span (fun c => negb (Ascii.eqb c "/")) (string_drop 2 url1) in
    UrlParts scheme netloc path
  else UrlParts scheme "" url1.

(** [urlunparse] *)
Definition urlunparse (u : url_parts) : string :=
  let url := u_path u in
  let url :=
    if negb (u_netloc u =? "")
       || (negb (u_scheme u =? "") && str_in (u_scheme u) uses_netloc
           && negb (String.prefix "//" url))
    then
      let url :=
        if negb (url =? "") && negb (String.prefix "/" url)
        then "/" +:+ url else url in
      "//" +:+ u_netloc u +:+ url
    else url in
  if negb (u_scheme u =? "") then u_scheme u +:+ ":" +:+ url else url.

(** [segments[1:-1] = filter(None, segments[1:-1])] *)
Definition drop_empty_inner (segments : list string) : list string :=
  match segments with
  | first :: (_ :: _) as rest =>
      first :: List.filter (fun s => negb (s =? "")) (removelast rest)
        ++ [List.last rest ""]
  | _ => segments
  end.

(** The loop that resolves [.] and [..] segments. *)
Definition resolve_segments (segments : list string) : list string :=
  fold_left
    (fun resolved seg =>
       if seg =? ".." then removelast resolved
       else if seg =? "." then resolved
       else resolved ++ [seg])
    segments [].

(** The characters of the URLs that the model covers. *)
Definition url_char (c : ascii) : bool :=
  let n := nat_of_ascii c in
  ((33 <=? n) && (n <=? 126))%nat
  && negb (Ascii.eqb c "?" || Ascii.eqb c "#" || Ascii.eqb c ";"
           || Ascii.eqb c "[" || Ascii.eqb c "]").

Fixpoint url_modelled (s : string) : bool :=
  match s with
  | EmptyString => true
  | String c s' => url_char c && url_modelled s'
  end.

Definition urljoin (base url : string) : string :=
  if base =? "" then url
  else if url =? "" then base
  else
    let b := urlparse base "" in
    let u := urlparse url (u_scheme b) in
    let scheme := u_scheme u in
    if negb (scheme =? u_scheme b) || negb (str_in scheme uses_relative)
    then url
    else if str_in scheme uses_netloc && negb (u_netloc u =? "")
    then urlunparse u
    else
      let netloc :=
        if str_in scheme uses_netloc then u_netloc b else u_netloc u in
      let path := u_path u in
      if path =? "" then urlunparse (UrlParts scheme netloc (u_path b))
      else
        let base_parts := split_on "/" (u_path b) in
        let base_parts :=
          if negb (List.last base_parts "" =? "") then removelast base_parts
          else base_parts in
        let segments :=
          if String.prefix "/" path then split_on "/" path
          else drop_empty_inner (base_parts ++ split_on "/" path) in
        let resolved_path := resolve_segments segments in
        let resolved_path :=
          if (List.last segments "" =? ".") || (List.last segments "" =? "..")
          then resolved_path ++ [""] else resolved_path in
        let joined := String.concat "/" resolved_path in
        urlunparse
          (UrlParts scheme netloc (if joined =? "" then "/" else joined)).


(** ** The request dispatcher *)

Record SS12000Client : Type := {
  base_url : string;
  headers : list (string * string)
}.

(** The arguments of [requests.request]. *)
Record http_request : Type := {
  rq_method : string;
  rq_url : string;
  rq_params : option odict;
  rq_json : option odict;
  rq_headers : list (string * string);
  rq_timeout : Z
}.

(** What the client reads of a [requests.Response]: [json] is the result
    of [response.json()], [None] when the body does not decode. *)
Record response : Type := {
  status_code : Z;
  text : string;
  json : option pyval
}.

(** The outcome of [requests.request]: a response; a
    [RequestException] without response (connection error, timeout,
    invalid URL); or a [RequestException] that carries the last response
    received ([TooManyRedirects]). *)
Inductive net_result : Type :=
| NoResponse
| FailedWith (r : response)
| Responded (r : response).

(** The [requests.exceptions.RequestException]s that reach [_request]:
    those of [requests.request], without response ([ConnectionError]
    stands for all of them) or with one ([TooManyRedirects]); the
    [HTTPError] of [raise_for_status]; and the decoding error of
    [response.json()] on a body that is not JSON (a [RequestException]
    since requests 2.27).  [e.response] is set for [TooManyRedirects] and
    [HTTPError]. *)
Inductive exn : Type :=
| ConnectionError
| TooManyRedirects (r : response)
| HTTPError (r : response)
| JSONDecodeError.

Definition exn_response (e : exn) : option response :=
  match e with
  | TooManyRedirects r => Some r
  | HTTPError r => Some r
  | _ => None
  end.

(** The lines written by [print]. *)
Inductive message : Type :=
| ErrorDuringCall (method url : string) (e : exn)
| ApiErrorResponse (error_body : pyval)
| ApiErrorResponseNonJson (raw : string).

Inductive event : Type :=
| Sent (rq : http_request)
| Printed (m : message).

Inductive result : Type :=
| Returned (v : pyval)
| Raised (e : exn).

(** [response.raise_for_status()] raises for the codes 400 to 599. *)
Definition is_error_status (r : response) : bool :=
  ((400 <=? status_code r) && (status_code r <? 600))%Z.

(** The requests sent during a call, in order. *)
Fixpoint outgoing (tr : list event) : list http_request :=
  match tr with
  | [] => []
  | Sent rq :: tr' => rq :: outgoing tr'
  | Printed _ :: tr' => outgoing tr'
  end.

(** The lines printed during a call, in order. *)
Fixpoint printed (tr : list event) : list message :=
  match tr with
  | [] => []
  | Sent _ :: tr' => printed tr'
  | Printed m :: tr' => m :: printed tr'
  end.

(** [SS12000Client.__init__]: [None] stands for the [ValueError] raised
    on an empty base URL; the warnings printed are not modelled. *)
Definition SS12000Client_init (base_url : string) (auth_token : option string)
  : option SS12000Client :=
  if base_url =? "" then None
  else
    let headers :=
      [("Content-Type", "application/json"); ("Accept", "application/json")] in
    let headers :=
      match auth_token with
      | Some t =>
          if t =? "" then headers
          else headers ++ [("Authorization", "Bearer " +:+ t)]
      | None => headers
      end in
    Some {| base_url := base_url; headers := headers |}.

(** The call [requests.request(method, url, params=params, json=json_data,
    headers=self.headers, timeout=30)]. *)
Definition request_args (self : SS12000Client) (method url : string)
    (params json_data : option odict) : http_request :=
  {| rq_method := method; rq_url := url; rq_params := params;
     rq_json := json_data; rq_headers := headers self; rq_timeout := 30 |}.

Section Dispatch.

(** [requests.request], the network. *)
Variable send : http_request -> net_result.

(** The [except requests.exceptions.RequestException as e] block: the
    error is printed, then the body of the attached response, decoded or,
    when [e.response.json()] raises [json.JSONDecodeError], as text; the
    exception is raised again. *)
Definition on_request_exception (method url : string) (e : exn)
  : result * list event :=
  let api_error :=
    match exn_response e with
    | Some r =>
        match json r with
        | Some error_body => [Printed (ApiErrorResponse error_body)]
        | None => [Printed (ApiErrorResponseNonJson (text r))]
        end
    | None => []
    end in
  (Raised e, Printed (ErrorDuringCall method url e) :: api_error).

(** [_request], for a base URL and a path that [urljoin] accepts: a
    [ValueError] of [urljoin], raised before the [try], is outside the
    model (see [url_modelled]). *)
Definition _request (self : SS12000Client) (method path : string)
    (params json_data : option odict) : result * list event :=
  let url := urljoin (base_url self) path in
  let rq := request_args self method url params json_data in
  let '(res, tr) :=
    match send rq with
    | NoResponse => on_request_exception method url ConnectionError
    | FailedWith r => on_request_exception method url (TooManyRedirects r)
    | Responded response =>
        if is_error_status response
        then on_request_exception method url (HTTPError response)
        else if (status_code response =? 204)%Z then (Returned PNone, [])
        else match json response with
             | Some v => (Returned v, [])
             | None => on_request_exception method url JSONDecodeError
             end
    end in
  (res, Sent rq :: tr).

(** ** List endpoints *)

(** [mapped_params]: one item per field, [wire name: params.get(keyword)],
    and [filtered_params], the items whose value is not [None]. *)
Definition mapped_params (fields : list (string * string))
    (params : gmap string pyval) : odict :=
  dict_literal (map (fun f => (fst f, kwargs_get params (snd f))) fields).

Definition get_list (path : string) (fields : list (string * string))
    (self : SS12000Client) (params : gmap string pyval) :=
  let filtered_params := drop_None (mapped_params fields params) in
  _request self "GET" path (Some filtered_params) None.

(** [get_organisations]: wire name and keyword of each filter. *)
Definition organisations_fields : list (string * string) :=
  [("parent", "parent");
   ("schoolUnitCode", "school_unit_code");
   ("organisationCode", "organisation_code");
   ("municipalityCode", "municipality_code");
   ("type", "type");
   ("schoolTypes", "school_types");
   ("startDate.onOrBefore", "start_date_on_or_before");
   ("startDate.onOrAfter", "start_date_on_or_after");
   ("endDate.onOrBefore", "end_date_on_or_before");
   ("endDate.onOrAfter", "end_date_on_or_after");
   ("meta.created.before", "meta_created_before");
   ("meta.created.after", "meta_created_after");
   ("meta.modified.before", "meta_modified_before");
   ("meta.modified.after", "meta_modified_after");
   ("expandReferenceNames", "expand_reference_names");
   ("sortkey", "sortkey");
   ("limit", "limit");
   ("pageToken", "page_token")].

Definition get_organisations (self : SS12000Client)
    (params : gmap string pyval) :=
  get_list "/organisations" organisations_fields self params.

(** [get_persons]: wire name and keyword of each filter. *)
Definition persons_fields : list (string * string) :=
  [("nameContains", "name_contains");
   ("civicNo", "civic_no");
   ("eduPersonPrincipalName", "edu_person_principal_name");
   ("identifier.value", "identifier_value");
   ("identifier.context", "identifier_context");
   ("relationship.entity.type", "relationship_entity_type");
   ("relationship.organisation", "relationship_organisation");
   ("relationship.startDate.onOrBefore", "relationship_start_date_on_or_before");
   ("relationship.startDate.onOrAfter", "relationship_start_date_on_or_after");
   ("relationship.endDate.onOrBefore", "relationship_end_date_on_or_before");
   ("relationship.endDate.onOrAfter", "relationship_end_date_on_or_after");
   ("meta.created.before", "meta_created_before");
   ("meta.created.after", "meta_created_after");
   ("meta.modified.before", "meta_modified_before");
   ("meta.modified.after", "meta_modified_after");
   ("expand", "expand");
   ("expandReferenceNames", "expand_reference_names");
   ("sortkey", "sortkey");
   ("limit", "limit");
   ("pageToken", "page_token")].

Definition get_persons (self : SS12000Client)
    (params : gmap string pyval) :=
  get_list "/persons" persons_fields self params.

(** [get_placements]: wire name and keyword of each filter. *)
Definition placements_fields : list (string * string) :=
  [("child", "child");
   ("group", "group");
   ("owner", "owner");
   ("placedAt", "placed_at");
   ("schoolType", "school_type");
   ("startDate.onOrBefore", "start_date_on_or_before");
   ("startDate.onOrAfter", "start_date_on_or_after");
   ("endDate.onOrBefore", "end_date_on_or_before");
   ("endDate.onOrAfter", "end_date_on_or_after");
   ("meta.created.before", "meta_created_before");
   ("meta.created.after", "meta_created_after");
   ("meta.modified.before", "meta_modified_before");
   ("meta.modified.after", "meta_modified_after");
   ("expand", "expand");
   ("expandReferenceNames", "expand_reference_names");
   ("sortkey", "sortkey");
   ("limit", "limit");
   ("pageToken", "page_token")].

Definition get_placements (self : SS12000Client)
    (params : gmap string pyval) :=
  get_list "/placements" placements_fields self params.

(** [get_duties]: wire name and keyword of each filter. *)
Definition duties_fields : list (string * string) :=
  [("person", "person");
   ("dutyAt", "duty_at");
   ("dutyRole", "duty_role");
   ("signature", "signature");
   ("startDate.onOrBefore", "start_date_on_or_before");
   ("startDate.onOrAfter", "start_date_on_or_after");
   ("endDate.onOrBefore", "end_date_on_or_before");
   ("endDate.onOrAfter", "end_date_on_or_after");
   ("meta.created.before", "meta_created_before");
   ("meta.created.after", "meta_created_after");
   ("meta.modified.before", "meta_modified_before");
   ("meta.modified.after", "meta_modified_after");
   ("expand", "expand");
   ("expandReferenceNames", "expand_reference_names");
   ("sortkey", "sortkey");
   ("limit", "limit");
   ("pageToken", "page_token")].

Definition get_duties (self : SS12000Client)
    (params : gmap string pyval) :=
  get_list "/duties" duties_fields self params.

(** [get_groups]: wire name and keyword of each filter. *)
Definition groups_fields : list (string * string) :=
  [("groupType", "group_type");
   ("schoolType", "school_type");
   ("organisation", "organisation");
   ("startDate.onOrBefore", "start_date_on_or_before");
   ("startDate.onOrAfter", "start_date_on_or_after");
   ("endDate.onOrBefore", "end_date_on_or_before");
   ("endDate.onOrAfter", "end_date_on_or_after");
   ("meta.created.before", "meta_created_before");
   ("meta.created.after", "meta_created_after");
   ("meta.modified.before", "meta_modified_before");
   ("meta.modified.after", "meta_modified_after");
   ("expand", "expand");
   ("expandReferenceNames", "expand_reference_names");
   ("sortkey", "sortkey");
   ("limit", "limit");
   ("pageToken", "page_token")].

Definition get_groups (self : SS12000Client)
    (params : gmap string pyval) :=
  get_list "/groups" groups_fields self params.

(** [get_programmes]: wire name and keyword of each filter. *)
Definition programmes_fields : list (string * string) :=
  [("nameContains", "name_contains");
   ("type", "type");
   ("parentProgramme", "parent_programme");
   ("schoolType", "school_type");
   ("code", "code");
   ("meta.created.before", "meta_created_before");
   ("meta.created.after", "meta_created_after");
   ("meta.modified.before", "meta_modified_before");
   ("meta.modified.after", "meta_modified_after");
   ("expand", "expand");
   ("expandReferenceNames", "expand_reference_names");
   ("sortkey", "sortkey");
   ("limit", "limit");
   ("pageToken", "page_token")].

Definition get_programmes (self : SS12000Client)
    (params : gmap string pyval) :=
  get_list "/programmes" programmes_fields self params.

(** [get_study_plans]: wire name and keyword of each filter. *)
Definition study_plans_fields : list (string * string) :=
  [("student", "student");
   ("startDate.onOrBefore", "start_date_on_or_before");
   ("startDate.onOrAfter", "start_date_on_or_after");
   ("endDate.onOrBefore", "end_date_on_or_before");
   ("endDate.onOrAfter", "end_date_on_or_after");
   ("meta.created.before", "meta_created_before");
   ("meta.created.after", "meta_created_after");
   ("meta.modified.before", "meta_modified_before");
   ("meta.modified.after", "meta_modified_after");
   ("expand", "expand");
   ("expandReferenceNames", "expand_reference_names");
   ("sortkey", "sortkey");
   ("limit", "limit");
   ("pageToken", "page_token")].

Definition get_study_plans (self : SS12000Client)
    (params : gmap string pyval) :=
  get_list "/studyplans" study_plans_fields self params.

(** [get_syllabuses]: wire name and keyword of each filter. *)
Definition syllabuses_fields : list (string * string) :=
  [("schoolType", "school_type");
   ("subjectCode", "subject_code");
   ("subjectNameContains", "subject_name_contains");
   ("subjectDesignation", "subject_designation");
   ("courseCode", "course_code");
   ("courseNameContains", "course_name_contains");
   ("startSchoolYear.onOrBefore", "start_school_year_on_or_before");
   ("startSchoolYear.onOrAfter", "start_school_year_on_or_after");
   ("endSchoolYear.onOrBefore", "end_school_year_on_or_before");
   ("endSchoolYear.onOrAfter", "end_school_year_on_or_after");
   ("points.onOrBefore", "points_on_or_before");
   ("points.onOrAfter", "points_on_or_after");
   ("curriculum", "curriculum");
   ("languageCode", "language_code");
   ("official", "official");
   ("meta.created.before", "meta_created_before");
   ("meta.created.after", "meta_created_after");
   ("meta.modified.before", "meta_modified_before");
   ("meta.modified.after", "meta_modified_after");
   ("expandReferenceNames", "expand_reference_names");
   ("sortkey", "sortkey");
   ("limit", "limit");
   ("pageToken", "page_token")].

Definition get_syllabuses (self : SS12000Client)
    (params : gmap string pyval) :=
  get_list "/syllabuses" syllabuses_fields self params.

(** [get_school_unit_offerings]: wire name and keyword of each filter. *)
Definition school_unit_offerings_fields : list (string * string) :=
  [("offeredAt", "offered_at");
   ("offeredSyllabuses", "offered_syllabuses");
   ("offeredProgrammes", "offered_programmes");
   ("startDate.onOrBefore", "start_date_on_or_before");
   ("startDate.onOrAfter", "start_date_on_or_after");
   ("endDate.onOrBefore", "end_date_on_or_before");
   ("endDate.onOrAfter", "end_date_on_or_after");
   ("meta.created.before", "meta_created_before");
   ("meta.created.after", "meta_created_after");
   ("meta.modified.before", "meta_modified_before");
   ("meta.modified.after", "meta_modified_after");
   ("expand", "expand");
   ("expandReferenceNames", "expand_reference_names");
   ("sortkey", "sortkey");
   ("limit", "limit");
   ("pageToken", "page_token")].

Definition get_school_unit_offerings (self : SS12000Client)
    (params : gmap string pyval) :=
  get_list "/schoolUnitOfferings" school_unit_offerings_fields self params.

(** [get_activities]: wire name and keyword of each filter. *)
Definition activities_fields : list (string * string) :=
  [("organisation", "organisation");
   ("syllabus", "syllabus");
   ("activityType", "activity_type");
   ("calendarEventsRequired", "calendar_events_required");
   ("startDate.onOrBefore", "start_date_on_or_before");
   ("startDate.onOrAfter", "start_date_on_or_after");
   ("endDate.onOrBefore", "end_date_on_or_before");
   ("endDate.onOrAfter", "end_date_on_or_after");
   ("meta.created.before", "meta_created_before");
   ("meta.created.after", "meta_created_after");
   ("meta.modified.before", "meta_modified_before");
   ("meta.modified.after", "meta_modified_after");
   ("expand", "expand");
   ("expandReferenceNames", "expand_reference_names");
   ("sortkey", "sortkey");
   ("limit", "limit");
   ("pageToken", "page_token")].

Definition get_activities (self : SS12000Client)
    (params : gmap string pyval) :=
  get_list "/activities" activities_fields self params.

(** [get_calendar_events]: wire name and keyword of each filter. *)
Definition calendar_events_fields : list (string * string) :=
  [("activity", "activity");
   ("startTime.onOrBefore", "start_time_on_or_before");
   ("startTime.onOrAfter", "start_time_on_or_after");
   ("endTime.onOrBefore", "end_time_on_or_before");
   ("endTime.onOrAfter", "end_time_on_or_after");
   ("cancelled", "cancelled");
   ("room", "room");
   ("resource", "resource");
   ("meta.created.before", "meta_created_before");
   ("meta.created.after", "meta_created_after");
   ("meta.modified.before", "meta_modified_before");
   ("meta.modified.after", "meta_modified_after");
   ("expand", "expand");
   ("expandReferenceNames", "expand_reference_names");
   ("sortkey", "sortkey");
   ("limit", "limit");
   ("pageToken", "page_token")].

Definition get_calendar_events (self : SS12000Client)
    (params : gmap string pyval) :=
  get_list "/calendarEvents" calendar_events_fields self params.

(** [get_attendances]: wire name and keyword of each filter. *)
Definition attendances_fields : list (string * string) :=
  [("calendarEvent", "calendar_event");
   ("student", "student");
   ("reporter", "reporter");
   ("isReported", "is_reported");
   ("reportedTimestamp.onOrBefore", "reported_timestamp_on_or_before");
   ("reportedTimestamp.onOrAfter", "reported_timestamp_on_or_after");
   ("meta.created.before", "meta_created_before");
   ("meta.created.after", "meta_created_after");
   ("meta.modified.before", "meta_modified_before");
   ("meta.modified.after", "meta_modified_after");
   ("expand", "expand");
   ("expandReferenceNames", "expand_reference_names");
   ("sortkey", "sortkey");
   ("limit", "limit");
   ("pageToken", "page_token")].

Definition get_attendances (self : SS12000Client)
    (params : gmap string pyval) :=
  get_list "/attendances" attendances_fields self params.

(** [get_attendance_events]: wire name and keyword of each filter. *)
Definition attendance_events_fields : list (string * string) :=
  [("person", "person");
   ("registeredBy", "registered_by");
   ("group", "group");
   ("room", "room");
   ("time.onOrBefore", "time_on_or_before");
   ("time.onOrAfter", "time_on_or_after");
   ("eventType", "event_type");
   ("meta.created.before", "meta_created_before");
   ("meta.created.after", "meta_created_after");
   ("meta.modified.before", "meta_modified_before");
   ("meta.modified.after", "meta_modified_after");
   ("expand", "expand");
   ("expandReferenceNames", "expand_reference_names");
   ("sortkey", "sortkey");
   ("limit", "limit");
   ("pageToken", "page_token")].

Definition get_attendance_events (self : SS12000Client)
    (params : gmap string pyval) :=
  get_list "/attendanceEvents" attendance_events_fields self params.

(** [get_attendance_schedules]: wire name and keyword of each filter. *)
Definition attendance_schedules_fields : list (string * string) :=
  [("placement", "placement");
   ("numberOfWeeks.onOrBefore", "number_of_weeks_on_or_before");
   ("numberOfWeeks.onOrAfter", "number_of_weeks_on_or_after");
   ("startDate.onOrBefore", "start_date_on_or_before");
   ("startDate.onOrAfter", "start_date_on_or_after");
   ("endDate.onOrBefore", "end_date_on_or_before");
   ("endDate.onOrAfter", "end_date_on_or_after");
   ("temporary", "temporary");
   ("state", "state");
   ("meta.created.before", "meta_created_before");
   ("meta.created.after", "meta_created_after");
   ("meta.modified.before", "meta_modified_before");
   ("meta.modified.after", "meta_modified_after");
   ("expand", "expand");
   ("expandReferenceNames", "expand_reference_names");
   ("sortkey", "sortkey");
   ("limit", "limit");
   ("pageToken", "page_token")].

Definition get_attendance_schedules (self : SS12000Client)
    (params : gmap string pyval) :=
  get_list "/attendanceSchedules" attendance_schedules_fields self params.

(** [get_grades]: wire name and keyword of each filter. *)
Definition grades_fields : list (string * string) :=
  [("student", "student");
   ("schoolUnit", "school_unit");
   ("registeredBy", "registered_by");
   ("gradingTeacher", "grading_teacher");
   ("group", "group");
   ("registeredDate.onOrBefore", "registered_date_on_or_before");
   ("registeredDate.onOrAfter", "registered_date_on_or_after");
   ("gradeValue", "grade_value");
   ("finalGrade", "final_grade");
   ("trial", "trial");
   ("adaptedStudyPlan", "adapted_study_plan");
   ("correctionType", "correction_type");
   ("converted", "converted");
   ("semester", "semester");
   ("year.onOrBefore", "year_on_or_before");
   ("year.onOrAfter", "year_on_or_after");
   ("syllabus", "syllabus");
   ("meta.created.before", "meta_created_before");
   ("meta.created.after", "meta_created_after");
   ("meta.modified.before", "meta_modified_before");
   ("meta.modified.after", "meta_modified_after");
   ("expand", "expand");
   ("expandReferenceNames", "expand_reference_names");
   ("sortkey", "sortkey");
   ("limit", "limit");
   ("pageToken", "page_token")].

Definition get_grades (self : SS12000Client)
    (params : gmap string pyval) :=
  get_list "/grades" grades_fields self params.

(** [get_aggregated_attendances]: wire name and keyword of each filter. *)
Definition aggregated_attendances_fields : list (string * string) :=
  [("activity", "activity");
   ("student", "student");
   ("startDate.onOrBefore", "start_date_on_or_before");
   ("startDate.onOrAfter", "start_date_on_or_after");
   ("endDate.onOrBefore", "end_date_on_or_before");
   ("endDate.onOrAfter", "end_date_on_or_after");
   ("meta.created.before", "meta_created_before");
   ("meta.created.after", "meta_created_after");
   ("meta.modified.before", "meta_modified_before");
   ("meta.modified.after", "meta_modified_after");
   ("expand", "expand");
   ("expandReferenceNames", "expand_reference_names");
   ("sortkey", "sortkey");
   ("limit", "limit");
   ("pageToken", "page_token")].

Definition get_aggregated_attendances (self : SS12000Client)
    (params : gmap string pyval) :=
  get_list "/aggregatedAttendance" aggregated_attendances_fields self params.

(** [get_resources]: wire name and keyword of each filter. *)
Definition resources_fields : list (string * string) :=
  [("owner", "owner");
   ("nameContains", "name_contains");
   ("meta.created.before", "meta_created_before");
   ("meta.created.after", "meta_created_after");
   ("meta.modified.before", "meta_modified_before");
   ("meta.modified.after", "meta_modified_after");
   ("expandReferenceNames", "expand_reference_names");
   ("sortkey", "sortkey");
   ("limit", "limit");
   ("pageToken", "page_token")].

Definition get_resources (self : SS12000Client)
    (params : gmap string pyval) :=
  get_list "/resources" resources_fields self params.

(** [get_rooms]: wire name and keyword of each filter. *)
Definition rooms_fields : list (string * string) :=
  [("owner", "owner");
   ("nameContains", "name_contains");
   ("meta.created.before", "meta_created_before");
   ("meta.created.after", "meta_created_after");
   ("meta.modified.before", "meta_modified_before");
   ("meta.modified.after", "meta_modified_after");
   ("expandReferenceNames", "expand_reference_names");
   ("sortkey", "sortkey");
   ("limit", "limit");
   ("pageToken", "page_token")].

Definition get_rooms (self : SS12000Client)
    (params : gmap string pyval) :=
  get_list "/rooms" rooms_fields self params.

(** [get_subscriptions]: wire name and keyword of each filter. *)
Definition subscriptions_fields : list (string * string) :=
  [("limit", "limit");
   ("pageToken", "page_token")].

Definition get_subscriptions (self : SS12000Client)
    (params : gmap string pyval) :=
  get_list "/subscriptions" subscriptions_fields self params.

(** [get_log]: wire name and keyword of each filter. *)
Definition log_fields : list (string * string) :=
  [("source", "source");
   ("target", "target");
   ("eventType", "event_type");
   ("timestamp.onOrBefore", "timestamp_on_or_before");
   ("timestamp.onOrAfter", "timestamp_on_or_after");
   ("meta.created.before", "meta_created_before");
   ("meta.created.after", "meta_created_after");
   ("meta.modified.before", "meta_modified_before");
   ("meta.modified.after", "meta_modified_after");
   ("sortkey", "sortkey");
   ("limit", "limit");
   ("pageToken", "page_token")].

Definition get_log (self : SS12000Client)
    (params : gmap string pyval) :=
  get_list "/log" log_fields self params.

(** [get_statistics]: wire name and keyword of each filter. *)
Definition statistics_fields : list (string * string) :=
  [("source", "source");
   ("target", "target");
   ("statisticType", "statistic_type");
   ("timestamp.onOrBefore", "timestamp_on_or_before");
   ("timestamp.onOrAfter", "timestamp_on_or_after");
   ("meta.created.before", "meta_created_before");
   ("meta.created.after", "meta_created_after");
   ("meta.modified.before", "meta_modified_before");
   ("meta.modified.after", "meta_modified_after");
   ("sortkey", "sortkey");
   ("limit", "limit");
   ("pageToken", "page_token")].

Definition get_statistics (self : SS12000Client)
    (params : gmap string pyval) :=
  get_list "/statistics" statistics_fields self params.

(** ** Lookup and get-by-id endpoints *)

(** [body = {'ids': ids} if ids else {}] *)
Definition ids_body (ids : pyval) : odict :=
  if truthy ids then dict_literal [("ids", ids)] else [].

(** [params = {'expandReferenceNames': expand_reference_names}
             if expand_reference_names else {}] *)
Definition reference_names_params (expand_reference_names : pyval) : odict :=
  if truthy expand_reference_names
  then dict_literal [("expandReferenceNames", expand_reference_names)]
  else [].

(** [params = {}], then [expand] and [expandReferenceNames] are set when
    their argument is true. *)
Definition expand_params (expand expand_reference_names : pyval) : odict :=
  let params := [] in
  let params :=
    if truthy expand then od_set "expand" expand params else params in
  let params :=
    if truthy expand_reference_names
    then od_set "expandReferenceNames" expand_reference_names params
    else params in
  params.

Definition lookup_organisations (self : SS12000Client)
    (ids school_unit_codes organisation_codes expand_reference_names : pyval) :=
  let body := [] in
  let body := if truthy ids then od_set "ids" ids body else body in
  let body :=
    if truthy school_unit_codes
    then od_set "schoolUnitCodes" school_unit_codes body else body in
  let body :=
    if truthy organisation_codes
    then od_set "organisationCodes" organisation_codes body else body in
  let params := reference_names_params expand_reference_names in
  _request self "POST" "/organisations/lookup" (Some params) (Some body).

Definition lookup_persons (self : SS12000Client)
    (ids civic_nos expand expand_reference_names : pyval) :=
  let body := [] in
  let body := if truthy ids then od_set "ids" ids body else body in
  let body :=
    if truthy civic_nos then od_set "civicNos" civic_nos body else body in
  let params := expand_params expand expand_reference_names in
  _request self "POST" "/persons/lookup" (Some params) (Some body).

Definition get_organisation_by_id (self : SS12000Client)
    (org_id : string) (expand_reference_names : pyval) :=
  _request self "GET" ("/organisations/" +:+ org_id)
    (Some (reference_names_params expand_reference_names)) None.

Definition get_person_by_id (self : SS12000Client)
    (person_id : string) (expand expand_reference_names : pyval) :=
  _request self "GET" ("/persons/" +:+ person_id)
    (Some (expand_params expand expand_reference_names)) None.

Definition lookup_placements (self : SS12000Client)
    (ids expand expand_reference_names : pyval) :=
  _request self "POST" "/placements/lookup"
    (Some (expand_params expand expand_reference_names)) (Some (ids_body ids)).

Definition get_placement_by_id (self : SS12000Client)
    (placement_id : string) (expand expand_reference_names : pyval) :=
  _request self "GET" ("/placements/" +:+ placement_id)
    (Some (expand_params expand expand_reference_names)) None.

Definition lookup_duties (self : SS12000Client)
    (ids expand expand_reference_names : pyval) :=
  _request self "POST" "/duties/lookup"
    (Some (expand_params expand expand_reference_names)) (Some (ids_body ids)).

Definition get_duty_by_id (self : SS12000Client)
    (duty_id : string) (expand expand_reference_names : pyval) :=
  _request self "GET" ("/duties/" +:+ duty_id)
    (Some (expand_params expand expand_reference_names)) None.

Definition lookup_groups (self : SS12000Client)
    (ids expand expand_reference_names : pyval) :=
  _request self "POST" "/groups/lookup"
    (Some (expand_params expand expand_reference_names)) (Some (ids_body ids)).

Definition get_group_by_id (self : SS12000Client)
    (group_id : string) (expand expand_reference_names : pyval) :=
  _request self "GET" ("/groups/" +:+ group_id)
    (Some (expand_params expand expand_reference_names)) None.

Definition lookup_programmes (self : SS12000Client)
    (ids expand expand_reference_names : pyval) :=
  _request self "POST" "/programmes/lookup"
    (Some (expand_params expand expand_reference_names)) (Some (ids_body ids)).

Definition get_programme_by_id (self : SS12000Client)
    (programme_id : string) (expand expand_reference_names : pyval) :=
  _request self "GET" ("/programmes/" +:+ programme_id)
    (Some (expand_params expand expand_reference_names)) None.

Definition lookup_study_plans (self : SS12000Client)
    (ids expand expand_reference_names : pyval) :=
  _request self "POST" "/studyplans/lookup"
    (Some (expand_params expand expand_reference_names)) (Some (ids_body ids)).

Definition get_study_plan_by_id (self : SS12000Client)
    (study_plan_id : string) (expand expand_reference_names : pyval) :=
  _request self "GET" ("/studyplans/" +:+ study_plan_id)
    (Some (expand_params expand expand_reference_names)) None.

Definition lookup_syllabuses (self : SS12000Client)
    (ids expand_reference_names : pyval) :=
  _request self "POST" "/syllabuses/lookup"
    (Some (reference_names_params expand_reference_names))
    (Some (ids_body ids)).

Definition get_syllabus_by_id (self : SS12000Client)
    (syllabus_id : string) (expand_reference_names : pyval) :=
  _request self "GET" ("/syllabuses/" +:+ syllabus_id)
    (Some (reference_names_params expand_reference_names)) None.

Definition lookup_school_unit_offerings (self : SS12000Client)
    (ids expand expand_reference_names : pyval) :=
  _request self "POST" "/schoolUnitOfferings/lookup"
    (Some (expand_params expand expand_reference_names)) (Some (ids_body ids)).

Definition get_school_unit_offering_by_id (self : SS12000Client)
    (offering_id : string) (expand expand_reference_names : pyval) :=
  _request self "GET" ("/schoolUnitOfferings/" +:+ offering_id)
    (Some (expand_params expand expand_reference_names)) None.

Definition lookup_activities (self : SS12000Client)
    (ids expand expand_reference_names : pyval) :=
  _request self "POST" "/activities/lookup"
    (Some (expand_params expand expand_reference_names)) (Some (ids_body ids)).

Definition get_activity_by_id (self : SS12000Client)
    (activity_id : string) (expand expand_reference_names : pyval) :=
  _request self "GET" ("/activities/" +:+ activity_id)
    (Some (expand_params expand expand_reference_names)) None.

Definition lookup_calendar_events (self : SS12000Client)
    (ids expand expand_reference_names : pyval) :=
  _request self "POST" "/calendarEvents/lookup"
    (Some (expand_params expand expand_reference_names)) (Some (ids_body ids)).

Definition get_calendar_event_by_id (self : SS12000Client)
    (event_id : string) (expand expand_reference_names : pyval) :=
  _request self "GET" ("/calendarEvents/" +:+ event_id)
    (Some (expand_params expand expand_reference_names)) None.

Definition lookup_attendances (self : SS12000Client)
    (ids expand expand_reference_names : pyval) :=
  _request self "POST" "/attendances/lookup"
    (Some (expand_params expand expand_reference_names)) (Some (ids_body ids)).

Definition get_attendance_by_id (self : SS12000Client)
    (attendance_id : string) (expand expand_reference_names : pyval) :=
  _request self "GET" ("/attendances/" +:+ attendance_id)
    (Some (expand_params expand expand_reference_names)) None.

Definition lookup_attendance_events (self : SS12000Client)
    (ids expand expand_reference_names : pyval) :=
  _request self "POST" "/attendanceEvents/lookup"
    (Some (expand_params expand expand_reference_names)) (Some (ids_body ids)).

Definition get_attendance_event_by_id (self : SS12000Client)
    (event_id : string) (expand expand_reference_names : pyval) :=
  _request self "GET" ("/attendanceEvents/" +:+ event_id)
    (Some (expand_params expand expand_reference_names)) None.

Definition lookup_attendance_schedules (self : SS12000Client)
    (ids expand expand_reference_names : pyval) :=
  _request self "POST" "/attendanceSchedules/lookup"
    (Some (expand_params expand expand_reference_names)) (Some (ids_body ids)).

Definition get_attendance_schedule_by_id (self : SS12000Client)
    (schedule_id : string) (expand expand_reference_names : pyval) :=
  _request self "GET" ("/attendanceSchedules/" +:+ schedule_id)
    (Some (expand_params expand expand_reference_names)) None.

Definition lookup_grades (self : SS12000Client)
    (ids expand expand_reference_names : pyval) :=
  _request self "POST" "/grades/lookup"
    (Some (expand_params expand expand_reference_names)) (Some (ids_body ids)).

Definition get_grade_by_id (self : SS12000Client)
    (grade_id : string) (expand expand_reference_names : pyval) :=
  _request self "GET" ("/grades/" +:+ grade_id)
    (Some (expand_params expand expand_reference_names)) None.

Definition lookup_aggregated_attendances (self : SS12000Client)
    (ids expand expand_reference_names : pyval) :=
  _request self "POST" "/aggregatedAttendance/lookup"
    (Some (expand_params expand expand_reference_names)) (Some (ids_body ids)).

Definition get_aggregated_attendance_by_id (self : SS12000Client)
    (attendance_id : string) (expand expand_reference_names : pyval) :=
  _request self "GET" ("/aggregatedAttendance/" +:+ attendance_id)
    (Some (expand_params expand expand_reference_names)) None.

Definition lookup_resources (self : SS12000Client)
    (ids expand_reference_names : pyval) :=
  _request self "POST" "/resources/lookup"
    (Some (reference_names_params expand_reference_names))
    (Some (ids_body ids)).

Definition get_resource_by_id (self : SS12000Client)
    (resource_id : string) (expand_reference_names : pyval) :=
  _request self "GET" ("/resources/" +:+ resource_id)
    (Some (reference_names_params expand_reference_names)) None.

Definition lookup_rooms (self : SS12000Client)
    (ids expand_reference_names : pyval) :=
  _request self "POST" "/rooms/lookup"
    (Some (reference_names_params expand_reference_names))
    (Some (ids_body ids)).

Definition get_room_by_id (self : SS12000Client)
    (room_id : string) (expand_reference_names : pyval) :=
  _request self "GET" ("/rooms/" +:+ room_id)
    (Some (reference_names_params expand_reference_names)) None.

(** ** Deletion, subscriptions and deleted entities *)

Definition delete_attendance (self : SS12000Client) (attendance_id : string) :=
  _request self "DELETE" ("/attendances/" +:+ attendance_id) None None.


Definition delete_subscription (self : SS12000Client)
    (subscription_id : string) :=
  _request self "DELETE" ("/subscriptions/" +:+ subscription_id) None None.

Definition get_subscription_by_id (self : SS12000Client)
    (subscription_id : string) :=
  _request self "GET" ("/subscriptions/" +:+ subscription_id) None None.

Definition update_subscription (self : SS12000Client)
    (subscription_id : string) (expires : pyval) :=
  let body := dict_literal [("expires", expires)] in
  _request self "PATCH" ("/subscriptions/" +:+ subscription_id) None
    (Some body).


End Dispatch.


(** ** The families of endpoints

    The methods of one family differ in their path and fields only; the
    statements below range over a family through these enumerations. *)

Inductive list_endpoint : Type :=
| Get_organisations
| Get_persons
| Get_placements
| Get_duties
| Get_groups
| Get_programmes
| Get_study_plans
| Get_syllabuses
| Get_school_unit_offerings
| Get_activities
| Get_calendar_events
| Get_attendances
| Get_attendance_events
| Get_attendance_schedules
| Get_grades
| Get_aggregated_attendances
| Get_resources
| Get_rooms
| Get_subscriptions
| Get_log
| Get_statistics.

Definition list_fields (e : list_endpoint) : list (string * string) :=
  match e with
  | Get_organisations => organisations_fields
  | Get_persons => persons_fields
  | Get_placements => placements_fields
  | Get_duties => duties_fields
  | Get_groups => groups_fields
  | Get_programmes => programmes_fields
  | Get_study_plans => study_plans_fields
  | Get_syllabuses => syllabuses_fields
  | Get_school_unit_offerings => school_unit_offerings_fields
  | Get_activities => activities_fields
  | Get_calendar_events => calendar_events_fields
  | Get_attendances => attendances_fields
  | Get_attendance_events => attendance_events_fields
  | Get_attendance_schedules => attendance_schedules_fields
  | Get_grades => grades_fields
  | Get_aggregated_attendances => aggregated_attendances_fields
  | Get_resources => resources_fields
  | Get_rooms => rooms_fields
  | Get_subscriptions => subscriptions_fields
  | Get_log => log_fields
  | Get_statistics => statistics_fields
  end.

Definition list_path (e : list_endpoint) : string :=
  match e with
  | Get_organisations => "/organisations"
  | Get_persons => "/persons"
  | Get_placements => "/placements"
  | Get_duties => "/duties"
  | Get_groups => "/groups"
  | Get_programmes => "/programmes"
  | Get_study_plans => "/studyplans"
  | Get_syllabuses => "/syllabuses"
  | Get_school_unit_offerings => "/schoolUnitOfferings"
  | Get_activities => "/activities"
  | Get_calendar_events => "/calendarEvents"
  | Get_attendances => "/attendances"
  | Get_attendance_events => "/attendanceEvents"
  | Get_attendance_schedules => "/attendanceSchedules"
  | Get_grades => "/grades"
  | Get_aggregated_attendances => "/aggregatedAttendance"
  | Get_resources => "/resources"
  | Get_rooms => "/rooms"
  | Get_subscriptions => "/subscriptions"
  | Get_log => "/log"
  | Get_statistics => "/statistics"
  end.

(** [params] is the dictionary bound to [**params]: it holds the
    keywords of the call, and never the key [self], since a call that
    passes [self] as a keyword raises [TypeError] when its arguments are
    bound. *)
Definition call_list (send : http_request -> net_result) (e : list_endpoint)
  : SS12000Client -> gmap string pyval -> result * list event :=
  match e with
  | Get_organisations => get_organisations send
  | Get_persons => get_persons send
  | Get_placements => get_placements send
  | Get_duties => get_duties send
  | Get_groups => get_groups send
  | Get_programmes => get_programmes send
  | Get_study_plans => get_study_plans send
  | Get_syllabuses => get_syllabuses send
  | Get_school_unit_offerings => get_school_unit_offerings send
  | Get_activities => get_activities send
  | Get_calendar_events => get_calendar_events send
  | Get_attendances => get_attendances send
  | Get_attendance_events => get_attendance_events send
  | Get_attendance_schedules => get_attendance_schedules send
  | Get_grades => get_grades send
  | Get_aggregated_attendances => get_aggregated_attendances send
  | Get_resources => get_resources send
  | Get_rooms => get_rooms send
  | Get_subscriptions => get_subscriptions send
  | Get_log => get_log send
  | Get_statistics => get_statistics send
  end.

(** The keyword arguments of a lookup call; a method is passed the ones
    it takes.  Omitted arguments have their defaults, [None] and
    [False]. *)
Record lookup_args : Type := {
  ids : pyval;
  civic_nos : pyval;
  school_unit_codes : pyval;
  organisation_codes : pyval;
  expand : pyval;
  expand_reference_names : pyval
}.

Definition lookup_defaults : lookup_args :=
  {| ids := PNone; civic_nos := PNone; school_unit_codes := PNone;
     organisation_codes := PNone; expand := PNone;
     expand_reference_names := PBool false |}.

Definition with_ids (v : pyval) (a : lookup_args) : lookup_args :=
  {| ids := v; civic_nos := civic_nos a;
     school_unit_codes := school_unit_codes a;
     organisation_codes := organisation_codes a; expand := expand a;
     expand_reference_names := expand_reference_names a |}.

Definition with_civic_nos (v : pyval) (a : lookup_args) : lookup_args :=
  {| ids := ids a; civic_nos := v;
     school_unit_codes := school_unit_codes a;
     organisation_codes := organisation_codes a; expand := expand a;
     expand_reference_names := expand_reference_names a |}.

Definition with_school_unit_codes (v : pyval) (a : lookup_args)
  : lookup_args :=
  {| ids := ids a; civic_nos := civic_nos a; school_unit_codes := v;
     organisation_codes := organisation_codes a; expand := expand a;
     expand_reference_names := expand_reference_names a |}.

Definition with_organisation_codes (v : pyval) (a : lookup_args)
  : lookup_args :=
  {| ids := ids a; civic_nos := civic_nos a;
     school_unit_codes := school_unit_codes a; organisation_codes := v;
     expand := expand a;
     expand_reference_names := expand_reference_names a |}.

Definition with_expand (v : pyval) (a : lookup_args) : lookup_args :=
  {| ids := ids a; civic_nos := civic_nos a;
     school_unit_codes := school_unit_codes a;
     organisation_codes := organisation_codes a; expand := v;
     expand_reference_names := expand_reference_names a |}.

Definition with_expand_reference_names (v : pyval) (a : lookup_args)
  : lookup_args :=
  {| ids := ids a; civic_nos := civic_nos a;
     school_unit_codes := school_unit_codes a;
     organisation_codes := organisation_codes a; expand := expand a;
     expand_reference_names := v |}.

Inductive lookup_endpoint : Type :=
| Lookup_organisations
| Lookup_persons
| Lookup_placements
| Lookup_duties
| Lookup_groups
| Lookup_programmes
| Lookup_study_plans
| Lookup_syllabuses
| Lookup_school_unit_offerings
| Lookup_activities
| Lookup_calendar_events
| Lookup_attendances
| Lookup_attendance_events
| Lookup_attendance_schedules
| Lookup_grades
| Lookup_aggregated_attendances
| Lookup_resources
| Lookup_rooms.

Definition call_lookup (send : http_request -> net_result)
    (e : lookup_endpoint) (self : SS12000Client) (a : lookup_args)
  : result * list event :=
  match e with
  | Lookup_organisations =>
      lookup_organisations send self (ids a) (school_unit_codes a)
        (organisation_codes a) (expand_reference_names a)
  | Lookup_persons =>
      lookup_persons send self (ids a) (civic_nos a) (expand a)
        (expand_reference_names a)
  | Lookup_placements =>
      lookup_placements send self (ids a) (expand a)
        (expand_reference_names a)
  | Lookup_duties =>
      lookup_duties send self (ids a) (expand a)
        (expand_reference_names a)
  | Lookup_groups =>
      lookup_groups send self (ids a) (expand a)
        (expand_reference_names a)
  | Lookup_programmes =>
      lookup_programmes send self (ids a) (expand a)
        (expand_reference_names a)
  | Lookup_study_plans =>
      lookup_study_plans send self (ids a) (expand a)
        (expand_reference_names a)
  | Lookup_syllabuses =>
      lookup_syllabuses send self (ids a) (expand_reference_names a)
  | Lookup_school_unit_offerings =>
      lookup_school_unit_offerings send self (ids a) (expand a)
        (expand_reference_names a)
  | Lookup_activities =>
      lookup_activities send self (ids a) (expand a)
        (expand_reference_names a)
  | Lookup_calendar_events =>
      lookup_calendar_events send self (ids a) (expand a)
        (expand_reference_names a)
  | Lookup_attendances =>
      lookup_attendances send self (ids a) (expand a)
        (expand_reference_names a)
  | Lookup_attendance_events =>
      lookup_attendance_events send self (ids a) (expand a)
        (expand_reference_names a)
  | Lookup_attendance_schedules =>
      lookup_attendance_schedules send self (ids a) (expand a)
        (expand_reference_names a)
  | Lookup_grades =>
      lookup_grades send self (ids a) (expand a)
        (expand_reference_names a)
  | Lookup_aggregated_attendances =>
      lookup_aggregated_attendances send self (ids a) (expand a)
        (expand_reference_names a)
  | Lookup_resources =>
      lookup_resources send self (ids a) (expand_reference_names a)
  | Lookup_rooms =>
      lookup_rooms send self (ids a) (expand_reference_names a)
  end.

(** Whether the method takes an [expand] argument. *)
Definition lookup_takes_expand (e : lookup_endpoint) : bool :=
  match e with
  | Lookup_organisations => false
  | Lookup_syllabuses => false
  | Lookup_resources => false
  | Lookup_rooms => false
  | _ => true
  end.

Inductive by_id_endpoint : Type :=
| Get_organisation_by_id
| Get_person_by_id
| Get_placement_by_id
| Get_duty_by_id
| Get_group_by_id
| Get_programme_by_id
| Get_study_plan_by_id
| Get_syllabus_by_id
| Get_school_unit_offering_by_id
| Get_activity_by_id
| Get_calendar_event_by_id
| Get_attendance_by_id
| Get_attendance_event_by_id
| Get_attendance_schedule_by_id
| Get_grade_by_id
| Get_aggregated_attendance_by_id
| Get_resource_by_id
| Get_room_by_id.

Definition call_by_id (send : http_request -> net_result)
    (e : by_id_endpoint) (self : SS12000Client) (id : string)
    (expand expand_reference_names : pyval) : result * list event :=
  match e with
  | Get_organisation_by_id => get_organisation_by_id send self id expand_reference_names
  | Get_person_by_id =>
      get_person_by_id send self id expand expand_reference_names
  | Get_placement_by_id =>
      get_placement_by_id send self id expand expand_reference_names
  | Get_duty_by_id =>
      get_duty_by_id send self id expand expand_reference_names
  | Get_group_by_id =>
      get_group_by_id send self id expand expand_reference_names
  | Get_programme_by_id =>
      get_programme_by_id send self id expand expand_reference_names
  | Get_study_plan_by_id =>
      get_study_plan_by_id send self id expand expand_reference_names
  | Get_syllabus_by_id => get_syllabus_by_id send self id expand_reference_names
  | Get_school_unit_offering_by_id =>
      get_school_unit_offering_by_id send self id expand expand_reference_names
  | Get_activity_by_id =>
      get_activity_by_id send self id expand expand_reference_names
  | Get_calendar_event_by_id =>
      get_calendar_event_by_id send self id expand expand_reference_names
  | Get_attendance_by_id =>
      get_attendance_by_id send self id expand expand_reference_names
  | Get_attendance_event_by_id =>
      get_attendance_event_by_id send self id expand expand_reference_names
  | Get_attendance_schedule_by_id =>
      get_attendance_schedule_by_id send self id expand expand_reference_names
  | Get_grade_by_id =>
      get_grade_by_id send self id expand expand_reference_names
  | Get_aggregated_attendance_by_id =>
      get_aggregated_attendance_by_id send self id expand expand_reference_names
  | Get_resource_by_id => get_resource_by_id send self id expand_reference_names
  | Get_room_by_id => get_room_by_id send self id expand_reference_names
  end.

Definition by_id_takes_expand (e : by_id_endpoint) : bool :=
  match e with
  | Get_organisation_by_id => false
  | Get_syllabus_by_id => false
  | Get_resource_by_id => false
  | Get_room_by_id => false
  | _ => true
  end.

(** ** Definitions used by the statements *)

(** A field is checked against the naming convention of range and
    timestamp filters through the endings of its two names. *)
Definition ends_with (suffix s : string) : bool :=
  let n := String.length suffix in
  let m := String.length s in
  (n <=? m)%nat && (substring (m - n) n s =? suffix).

Definition follows_convention (f : string * string) : bool :=
  let w := fst f in
  let l := snd f in
  Bool.eqb (ends_with "_on_or_before" l) (ends_with ".onOrBefore" w)
  && Bool.eqb (ends_with "_on_or_after" l) (ends_with ".onOrAfter" w)
  && Bool.eqb (l =? "start_date_on_or_before") (w =? "startDate.onOrBefore")
  && Bool.eqb (l =? "start_date_on_or_after") (w =? "startDate.onOrAfter")
  && Bool.eqb (String.prefix "startDate." w)
       ((w =? "startDate.onOrBefore") || (w =? "startDate.onOrAfter"))
  && Bool.eqb (l =? "meta_created_before") (w =? "meta.created.before")
  && Bool.eqb (l =? "meta_created_after") (w =? "meta.created.after")
  && Bool.eqb (l =? "meta_modified_before") (w =? "meta.modified.before")
  && Bool.eqb (l =? "meta_modified_after") (w =? "meta.modified.after").

(** The wire name that the convention gives to a range or timestamp
    keyword: [x_on_or_before] and [x_on_or_after] become [X.onOrBefore]
    and [X.onOrAfter], where [X] is [x] in camel case, with the prefix
    [relationship_] kept as the separate component [relationship.]; a
    [meta_] keyword has its underscores replaced by dots.  Other keywords
    have no conventional name. *)
Definition upper_char (c : ascii) : ascii :=
  let n := nat_of_ascii c in
  if ((97 <=? n) && (n <=? 122))%nat then ascii_of_nat (n - 32) else c.

Fixpoint camel (s : string) : string :=
  match s with
  | EmptyString => ""
  | String c s' =>
      if Ascii.eqb c "_" then
        match s' with
        | EmptyString => ""
        | String d s'' => String (upper_char d) (camel s'')
        end
      else String c (camel s')
  end.

Fixpoint dotted (s : string) : string :=
  match s with
  | EmptyString => ""
  | String c s' =>
      String (if Ascii.eqb c "_" then "."%char else c) (dotted s')
  end.

Definition strip_suffix (suffix s : string) : option string :=
  if ends_with suffix s
  then Some (substring 0 (String.length s - String.length suffix) s)
  else None.

Definition field_path (x : string) : string :=
  if String.prefix "relationship_" x
  then "relationship." +:+ camel (string_drop 13 x)
  else camel x.

Definition conventional_wire_name (l : string) : option string :=
  match strip_suffix "_on_or_before" l with
  | Some x => Some (field_path x +:+ ".onOrBefore")
  | None =>
      match strip_suffix "_on_or_after" l with
      | Some x => Some (field_path x +:+ ".onOrAfter")
      | None => if String.prefix "meta_" l then Some (dotted l) else None
      end
  end.

Definition named_by_convention (f : string * string) : bool :=
  match conventional_wire_name (snd f) with
  | Some w => fst f =? w
  | None => true
  end.

(** The list methods that have the filter [start_date_on_or_before]. *)
Definition has_start_date (e : list_endpoint) : bool :=
  match e with
  | Get_organisations | Get_placements | Get_duties | Get_groups
  | Get_study_plans | Get_school_unit_offerings | Get_activities
  | Get_attendance_schedules | Get_aggregated_attendances => true
  | _ => false
  end.

(** [s] between double quotes, for the text of JSON bodies. *)
Definition quoted (s : string) : string :=
  String (ascii_of_nat 34) s +:+ String (ascii_of_nat 34) "".

(** Following the specification of the lookup request: the JSON body
    holds the identifier lists of the resource that are populated, the
    query string holds [expand] and [expandReferenceNames] when set. *)
Definition populated (items : odict) : odict :=
  List.filter (fun kv => truthy (snd kv)) items.

Definition spec_lookup_body (e : lookup_endpoint) (a : lookup_args) : odict :=
  populated
    match e with
    | Lookup_organisations =>
        [("ids", ids a); ("schoolUnitCodes", school_unit_codes a);
         ("organisationCodes", organisation_codes a)]
    | Lookup_persons => [("ids", ids a); ("civicNos", civic_nos a)]
    | _ => [("ids", ids a)]
    end.

Definition spec_lookup_query (e : lookup_endpoint) (a : lookup_args)
  : odict :=
  populated
    (if lookup_takes_expand e
     then [("expand", expand a);
           ("expandReferenceNames", expand_reference_names a)]
     else [("expandReferenceNames", expand_reference_names a)]).

Create HintDb client_methods.

#[export] Hint Unfold
  lookup_organisations lookup_persons lookup_placements lookup_duties
  lookup_groups lookup_programmes lookup_study_plans lookup_syllabuses
  lookup_school_unit_offerings lookup_activities lookup_calendar_events
  lookup_attendances lookup_attendance_events lookup_attendance_schedules
  lookup_grades lookup_aggregated_attendances lookup_resources lookup_rooms
  get_organisation_by_id get_person_by_id get_placement_by_id get_duty_by_id
  get_group_by_id get_programme_by_id get_study_plan_by_id get_syllabus_by_id
  get_school_unit_offering_by_id get_activity_by_id get_calendar_event_by_id
  get_attendance_by_id get_attendance_event_by_id
  get_attendance_schedule_by_id get_grade_by_id
  get_aggregated_attendance_by_id get_resource_by_id get_room_by_id
  ids_body expand_params reference_names_params
  spec_lookup_body spec_lookup_query populated
  : client_methods.

(** Case analysis on the truth value of every argument tested. *)
Ltac by_truth_values :=
  repeat match goal with
         | |- context [truthy ?v] => destruct (truthy v) eqn:?
         end;
  simpl.


(** The warnings printed by [SS12000Client.__init__], in order: the base
    URL does not start with [https://], the token is missing.  Nothing is
    printed before the [ValueError] of an empty base URL. *)
Inductive warning : Type :=
| NoHttpsWarning
| NoTokenWarning.

Definition SS12000Client_init_warnings (base_url : string)
    (auth_token : option string) : list warning :=
  if base_url =? "" then []
  else
    (if String.prefix "https://" base_url then [] else [NoHttpsWarning])
    ++ match auth_token with
       | Some t => if t =? "" then [NoTokenWarning] else []
       | None => [NoTokenWarning]
       end.

(** A path segment that [urljoin] keeps as it is. *)
Definition plain_segment (seg : string) : bool :=
  negb (seg =? "..") && negb (seg =? ".").

(** ** Facts about ordered dictionaries *)

Lemma od_set_fresh k v d :
  ~ In k (keys d) -> od_set k v d = d ++ [(k, v)].
Proof.
  induction d as [|[k' v'] d IH]; simpl; intros Hk; [reflexivity|].
  destruct (String.eqb_spec k k') as [->|Hne].
  - exfalso. apply Hk. now left.
  - f_equal. apply IH. intros Hin. apply Hk. now right.
Qed.

Lemma dict_literal_from acc items :
  List.NoDup (keys (acc ++ items)) ->
  fold_left (fun d kv => od_set (fst kv) (snd kv) d) items acc = acc ++ items.
Proof.
  revert acc. induction items as [|[k v] items IH]; intros acc Hnd; simpl.
  - now rewrite app_nil_r.
  - assert (Hfresh : ~ In k (keys acc)).
    { unfold keys in *. rewrite map_app in Hnd. simpl in Hnd.
      apply NoDup_remove_2 in Hnd. intros Hin. apply Hnd.
      apply in_or_app. now left. }
    rewrite (od_set_fresh k v acc Hfresh).
    rewrite IH; rewrite <- app_assoc; simpl; [reflexivity | exact Hnd].
Qed.

(** A display with pairwise different keys is the list of its items. *)
Lemma dict_literal_NoDup items :
  List.NoDup (keys items) -> dict_literal items = items.
Proof. intros Hnd. unfold dict_literal. now rewrite dict_literal_from. Qed.

Lemma keys_filter_NoDup (p : string * pyval -> bool) d :
  List.NoDup (keys d) -> List.NoDup (keys (List.filter p d)).
Proof.
  unfold keys. induction d as [|kv d IH]; simpl; intros Hnd; [constructor|].
  inversion Hnd as [|? ? Hnotin Hnd']; subst.
  destruct (p kv); simpl; [constructor|]; auto.
  intros Hin. apply Hnotin.
  apply in_map_iff in Hin as [x [Hx Hin]]. apply filter_In in Hin as [Hin _].
  apply in_map_iff. now exists x.
Qed.

Lemma drop_None_NoDup d :
  List.NoDup (keys d) ->
  drop_None d = List.filter (fun kv => negb (is_None (snd kv))) d.
Proof.
  intros Hnd. unfold drop_None. apply dict_literal_NoDup.
  now apply keys_filter_NoDup.
Qed.

(** ** The query of a list endpoint *)

(** With pairwise different wire names, the query is the list of the
    fields whose keyword holds a value other than [None], in order. *)
Lemma filtered_params_eq fields params :
  List.NoDup (map fst fields) ->
  drop_None (mapped_params fields params)
  = List.filter (fun kv => negb (is_None (snd kv)))
      (map (fun f => (fst f, kwargs_get params (snd f))) fields).
Proof.
  intros Hnd.
  assert (Hk : keys (map (fun f => (fst f, kwargs_get params (snd f))) fields)
               = map fst fields).
  { unfold keys. rewrite map_map. reflexivity. }
  unfold mapped_params. rewrite dict_literal_NoDup by now rewrite Hk.
  apply drop_None_NoDup. now rewrite Hk.
Qed.

Lemma list_fields_wire_NoDup e : List.NoDup (map fst (list_fields e)).
Proof.
  destruct e; apply NoDup_ListNoDup, (bool_decide_unpack _);
    vm_compute; reflexivity.
Qed.

Lemma list_fields_keyword_NoDup e : List.NoDup (map snd (list_fields e)).
Proof.
  destruct e; apply NoDup_ListNoDup, (bool_decide_unpack _);
    vm_compute; reflexivity.
Qed.

Lemma list_fields_convention e :
  forallb follows_convention (list_fields e) = true.
Proof. destruct e; vm_compute; reflexivity. Qed.

Lemma call_list_eq send e self params :
  call_list send e self params
  = _request send self "GET" (list_path e)
      (Some (List.filter (fun kv => negb (is_None (snd kv)))
               (map (fun f => (fst f, kwargs_get params (snd f)))
                  (list_fields e))))
      None.
Proof.
  rewrite <- (filtered_params_eq _ _ (list_fields_wire_NoDup e)).
  destruct e; reflexivity.
Qed.

(** Every call of the dispatcher sends exactly one request. *)
Lemma _request_outgoing send self method path params json_data :
  outgoing (snd (_request send self method path params json_data))
  = [request_args self method (urljoin (base_url self) path)
       params json_data].
Proof.
  unfold _request, on_request_exception.
  destruct (send _) as [|r|r]; simpl; [reflexivity| |].
  - destruct (json r); reflexivity.
  - destruct (is_error_status r); simpl.
    + destruct (json r); reflexivity.
    + destruct (status_code r =? 204)%Z; simpl; [reflexivity|].
      destruct (json r); reflexivity.
Qed.

(** A key of the query comes from a field of the endpoint whose keyword
    was passed with a value other than [None]. *)
Lemma query_key_origin fields (params : gmap string pyval) w :
  In w (keys (List.filter (fun kv => negb (is_None (snd kv)))
                (map (fun f => (fst f, kwargs_get params (snd f))) fields))) ->
  exists l, In (w, l) fields /\ kwargs_get params l <> PNone.
Proof.
  unfold keys. intros Hin.
  apply in_map_iff in Hin as [[w' v] [Hw Hin]]. simpl in Hw. subst w'.
  apply filter_In in Hin as [Hin Hv]. simpl in Hv.
  apply in_map_iff in Hin as [[w' l] [Heq Hin]]. simpl in Heq.
  injection Heq as -> <-. exists l. split; [exact Hin|].
  intros Hnone. rewrite Hnone in Hv. discriminate.
Qed.

Lemma NoDup_fst_functional {A B} (l : list (A * B)) a b b' :
  List.NoDup (map fst l) -> In (a, b) l -> In (a, b') l -> b = b'.
Proof.
  induction l as [|[x y] l IH]; simpl; intros Hnd H1 H2; [contradiction|].
  inversion Hnd as [|? ? Hnotin Hnd']; subst.
  destruct H1 as [H1|H1], H2 as [H2|H2].
  - congruence.
  - injection H1 as -> ->. exfalso. apply Hnotin.
    apply in_map_iff. now exists (a, b').
  - injection H2 as -> ->. exfalso. apply Hnotin.
    apply in_map_iff. now exists (a, b).
  - now apply IH.
Qed.

Lemma kwargs_get_singleton_eq l (v : pyval) : kwargs_get {[ l := v ]} l = v.
Proof. unfold kwargs_get. now rewrite lookup_singleton_eq. Qed.

Lemma kwargs_get_singleton_ne l l' (v : pyval) :
  l <> l' -> kwargs_get {[ l := v ]} l' = PNone.
Proof. intros Hne. unfold kwargs_get. now rewrite lookup_singleton_ne. Qed.

Lemma kwargs_get_insert_ne (params : gmap string pyval) k l v :
  k <> l -> kwargs_get (<[ k := v ]> params) l = kwargs_get params l.
Proof. intros Hne. unfold kwargs_get. now rewrite lookup_insert_ne. Qed.

Lemma other_keywords_dropped fields l (v : pyval) :
  ~ In l (map snd fields) ->
  List.filter (fun kv => negb (is_None (snd kv)))
    (map (fun f : string * string =>
            (fst f, kwargs_get {[ l := v ]} (snd f))) fields)
  = [].
Proof.
  induction fields as [|[a b] fields IH]; simpl; intros Hn; [reflexivity|].
  rewrite kwargs_get_singleton_ne.
  - simpl. apply IH. intros Hc. apply Hn. now right.
  - intros ->. apply Hn. left. reflexivity.
Qed.

(** The query of a call that passes the single keyword [l]. *)
Lemma single_keyword_query fields l (v : pyval) w :
  List.NoDup (map snd fields) -> In (w, l) fields -> v <> PNone ->
  List.filter (fun kv => negb (is_None (snd kv)))
    (map (fun f : string * string =>
            (fst f, kwargs_get {[ l := v ]} (snd f))) fields)
  = [(w, v)].
Proof.
  intros Hnd Hin Hv.
  induction fields as [|[w' l'] fields IH]; simpl in *; [contradiction|].
  inversion Hnd as [|? ? Hnotin Hnd']; subst.
  destruct Hin as [Heq|Hin].
  - injection Heq as -> ->. rewrite kwargs_get_singleton_eq.
    rewrite (other_keywords_dropped _ _ _ Hnotin).
    destruct v; try congruence; reflexivity.
  - assert (Hne : l <> l').
    { intros ->. apply Hnotin. apply in_map_iff. now exists (w, l'). }
    rewrite (kwargs_get_singleton_ne _ _ _ Hne). simpl. now apply IH.
Qed.

(** C1. For every list endpoint and every filter field of it, when the
    keyword of the field is not passed, or is passed as [None], the wire
    name of the field is not a key of the query parameters of the request
    that is sent. *)
Theorem absent_filter_not_in_query
    (send : http_request -> net_result) (e : list_endpoint)
    (self : SS12000Client) (params : gmap string pyval) (w l : string) :
  In (w, l) (list_fields e) ->
  params !! l = None \/ params !! l = Some PNone ->
  exists rq q,
    outgoing (snd (call_list send e self params)) = [rq]
    /\ rq_params rq = Some q
    /\ ~ In w (keys q).
Proof.
  intros Hin Habs. rewrite call_list_eq, _request_outgoing.
  eexists _, _. split; [reflexivity|]. split; [reflexivity|].
  intros Hk. apply query_key_origin in Hk as [l' [Hin' Hv]].
  assert (l' = l) as ->
    by exact (NoDup_fst_functional _ _ _ _ (list_fields_wire_NoDup e) Hin' Hin).
  apply Hv. unfold kwargs_get. destruct Habs as [-> | ->]; reflexivity.
Qed.

Lemma absent_filter_not_in_query_witness :
  exists rq q,
    outgoing (snd (call_list (fun _ => NoResponse) Get_organisations
                     {| base_url := "https://some.server.se/v2.0";
                        headers := [] |}
                     {[ "limit" := PInt 2; "parent" := PNone ]})) = [rq]
    /\ rq_params rq = Some q
    /\ ~ In "parent" (keys q).
Proof.
  apply (absent_filter_not_in_query _ Get_organisations _ _ "parent" "parent").
  - simpl. tauto.
  - right. reflexivity.
Defined.

Lemma eqb_iff_eq a b c d :
  Bool.eqb (a =? b) (c =? d) = true -> (a = b <-> c = d).
Proof.
  intros H. apply eqb_prop in H.
  rewrite <- !String.eqb_eq. now rewrite H.
Qed.

(** What [follows_convention] says of a field of a list endpoint. *)
Lemma field_convention e w l :
  In (w, l) (list_fields e) ->
  ends_with "_on_or_before" l = ends_with ".onOrBefore" w
  /\ ends_with "_on_or_after" l = ends_with ".onOrAfter" w
  /\ (l = "start_date_on_or_before" <-> w = "startDate.onOrBefore")
  /\ (l = "start_date_on_or_after" <-> w = "startDate.onOrAfter")
  /\ (String.prefix "startDate." w = true ->
      w = "startDate.onOrBefore" \/ w = "startDate.onOrAfter")
  /\ (l = "meta_created_before" <-> w = "meta.created.before")
  /\ (l = "meta_created_after" <-> w = "meta.created.after")
  /\ (l = "meta_modified_before" <-> w = "meta.modified.before")
  /\ (l = "meta_modified_after" <-> w = "meta.modified.after").
Proof.
  intros Hin.
  pose proof (list_fields_convention e) as Hall.
  rewrite forallb_forall in Hall. specialize (Hall _ Hin).
  unfold follows_convention in Hall. simpl fst in Hall. simpl snd in Hall.
  apply andb_prop in Hall as [Hall H9]. apply andb_prop in Hall as [Hall H8].
  apply andb_prop in Hall as [Hall H7]. apply andb_prop in Hall as [Hall H6].
  apply andb_prop in Hall as [Hall H5]. apply andb_prop in Hall as [Hall H4].
  apply andb_prop in Hall as [Hall H3]. apply andb_prop in Hall as [H1 H2].
  apply eqb_prop in H1, H2, H5.
  apply eqb_iff_eq in H3, H4, H6, H7, H8, H9.
  repeat split; try tauto.
  intros Hp. rewrite Hp in H5. symmetry in H5.
  apply orb_prop in H5 as [H5|H5]; apply String.eqb_eq in H5; tauto.
Qed.

Lemma list_fields_named e :
  forallb named_by_convention (list_fields e) = true.
Proof. destruct e; vm_compute; reflexivity. Qed.

Lemma In_fields_iff (f : string * string) fields :
  In f fields
  <-> existsb (fun g => (fst g =? fst f) && (snd g =? snd f)) fields = true.
Proof.
  rewrite existsb_exists. split.
  - intros Hin. exists f. split; [assumption|]. now rewrite !String.eqb_refl.
  - intros ([a b] & Hin & Heq). apply andb_prop in Heq as [H1 H2].
    apply String.eqb_eq in H1, H2. simpl in H1, H2. destruct f as [c d].
    simpl in *. now subst.
Qed.

(** The methods that have the filter [start_date_on_or_before]. *)
Lemma start_date_filter_iff e :
  In ("startDate.onOrBefore", "start_date_on_or_before") (list_fields e)
  <-> has_start_date e = true.
Proof.
  rewrite In_fields_iff. destruct e; vm_compute; split; congruence.
Qed.

(** Every list method but [get_subscriptions] has the four timestamp
    filters. *)
Lemma meta_filters_present e :
  e <> Get_subscriptions ->
  In ("meta.created.before", "meta_created_before") (list_fields e)
  /\ In ("meta.created.after", "meta_created_after") (list_fields e)
  /\ In ("meta.modified.before", "meta_modified_before") (list_fields e)
  /\ In ("meta.modified.after", "meta_modified_after") (list_fields e).
Proof.
  intros Hne. rewrite !In_fields_iff.
  destruct e; try contradiction; vm_compute; repeat split.
Qed.

(** C3, as the code has it.  For a list method whose filters include the
    keyword, a range or timestamp filter is sent under its conventional
    wire name and under no other key: a call that passes the single
    keyword [l] sends the query [{w: v}], where [w] is the name the
    convention gives to [l]; [_on_or_before] and [_on_or_after] keywords
    go to [.onOrBefore] and [.onOrAfter] names; [start_date_on_or_before]
    goes to [startDate.onOrBefore], the four [meta] timestamps to
    [meta.created.before], [meta.created.after], [meta.modified.before]
    and [meta.modified.after]; and in any call a key that starts with
    [startDate.] is one of the two range names, sent because its own
    keyword was passed.  Nine methods have [start_date_on_or_before]
    ([has_start_date]); all but [get_subscriptions] have the four [meta]
    filters. *)
Theorem range_filter_wire_names
    (send : http_request -> net_result) (e : list_endpoint)
    (self : SS12000Client) (w l : string) (v : pyval) :
  In (w, l) (list_fields e) ->
  v <> PNone ->
  (exists rq,
     outgoing (snd (call_list send e self {[ l := v ]})) = [rq]
     /\ rq_params rq = Some [(w, v)])
  /\ (l = "start_date_on_or_before" ->
      exists rq,
        outgoing (snd (call_list send e self
                         {[ "start_date_on_or_before" := PStr "2024-01-01" ]}))
        = [rq]
        /\ rq_params rq = Some [("startDate.onOrBefore", PStr "2024-01-01")])
  /\ (forall params rq q k,
        outgoing (snd (call_list send e self params)) = [rq] ->
        rq_params rq = Some q ->
        In k (keys q) ->
        String.prefix "startDate." k = true ->
        (k = "startDate.onOrBefore"
         /\ kwargs_get params "start_date_on_or_before" <> PNone)
        \/ (k = "startDate.onOrAfter"
            /\ kwargs_get params "start_date_on_or_after" <> PNone))
  /\ ends_with "_on_or_before" l = ends_with ".onOrBefore" w
  /\ ends_with "_on_or_after" l = ends_with ".onOrAfter" w
  /\ (l = "start_date_on_or_before" <-> w = "startDate.onOrBefore")
  /\ (l = "start_date_on_or_after" <-> w = "startDate.onOrAfter")
  /\ (l = "meta_created_before" <-> w = "meta.created.before")
  /\ (l = "meta_created_after" <-> w = "meta.created.after")
  /\ (l = "meta_modified_before" <-> w = "meta.modified.before")
  /\ (l = "meta_modified_after" <-> w = "meta.modified.after")
  /\ (forall w', conventional_wire_name l = Some w' -> w = w')
  /\ (In ("startDate.onOrBefore", "start_date_on_or_before") (list_fields e)
      <-> has_start_date e = true)
  /\ (e <> Get_subscriptions ->
      In ("meta.created.before", "meta_created_before") (list_fields e)
      /\ In ("meta.created.after", "meta_created_after") (list_fields e)
      /\ In ("meta.modified.before", "meta_modified_before") (list_fields e)
      /\ In ("meta.modified.after", "meta_modified_after") (list_fields e)).
Proof.
  intros Hin Hv.
  destruct (field_convention e w l Hin)
    as (Hb & Ha & Hsb & Hsa & _ & Hcb & Hca & Hmb & Hma).
  assert (Hnamed : forall w', conventional_wire_name l = Some w' -> w = w').
  { intros w' Hc. pose proof (list_fields_named e) as Hall.
    rewrite forallb_forall in Hall. specialize (Hall _ Hin).
    unfold named_by_convention in Hall. simpl in Hall.
    rewrite Hc in Hall. now apply String.eqb_eq. }
  pose proof (start_date_filter_iff e) as Hstart.
  pose proof (meta_filters_present e) as Hmeta.
  assert (Hsingle : forall w' l' v', In (w', l') (list_fields e) ->
            v' <> PNone ->
            exists rq,
              outgoing (snd (call_list send e self {[ l' := v' ]})) = [rq]
              /\ rq_params rq = Some [(w', v')]).
  { intros w' l' v' Hin' Hv'. rewrite call_list_eq, _request_outgoing.
    eexists. split; [reflexivity|]. simpl. f_equal.
    now apply single_keyword_query; [apply list_fields_keyword_NoDup|..]. }
  split; [now apply Hsingle|].
  split.
  { intros ->. apply Hsingle; [|discriminate].
    now rewrite (proj1 Hsb eq_refl) in Hin. }
  split.
  { intros params rq q k Hout Hq Hk Hp.
    rewrite call_list_eq, _request_outgoing in Hout.
    injection Hout as <-. simpl in Hq. injection Hq as <-.
    apply query_key_origin in Hk as (l' & Hin' & Hv').
    destruct (field_convention e k l' Hin')
      as (_ & _ & Hsb' & Hsa' & Hpre & _).
    destruct (Hpre Hp) as [->| ->].
    - left. split; [reflexivity|]. now rewrite <- (proj2 Hsb' eq_refl).
    - right. split; [reflexivity|]. now rewrite <- (proj2 Hsa' eq_refl). }
  repeat (split; [assumption|]). assumption.
Qed.

Lemma range_filter_wire_names_witness :
  exists rq,
    outgoing (snd (call_list (fun _ => NoResponse) Get_placements
                     {| base_url := "https://some.server.se/v2.0";
                        headers := [] |}
                     {[ "start_date_on_or_before" := PStr "2024-01-01" ]}))
    = [rq]
    /\ rq_params rq = Some [("startDate.onOrBefore", PStr "2024-01-01")].
Proof.
  refine (proj1 (range_filter_wire_names _ Get_placements _
                   "startDate.onOrBefore" "start_date_on_or_before"
                   (PStr "2024-01-01") _ _)).
  - simpl. tauto.
  - discriminate.
Defined.

(** C3, as stated, fails: [get_persons] takes range filters, but
    [start_date_on_or_before] is not one of them, and the call
    [get_persons(start_date_on_or_before="2024-01-01")] sends an empty
    query, without [startDate.onOrBefore]. *)
Lemma range_keyword_dropped_by_get_persons :
  let out :=
    get_persons (fun _ => NoResponse)
      {| base_url := "https://some.server.se/v2.0"; headers := [] |}
      {[ "start_date_on_or_before" := PStr "2024-01-01" ]} in
  In ("relationship.startDate.onOrBefore",
      "relationship_start_date_on_or_before") persons_fields
  /\ map rq_params (outgoing (snd out)) = [Some []]
  /\ forall rq q, In rq (outgoing (snd out)) -> rq_params rq = Some q ->
        ~ In "startDate.onOrBefore" (keys q).
Proof.
  vm_compute. split; [tauto|]. split; [reflexivity|].
  intros rq q [<-|[]] Hq. injection Hq as <-. tauto.
Qed.

(** C6, as the code has it.  A keyword other than [self] that is not a
    filter of the endpoint is ignored: the call is the call without it,
    one request is sent, and every key of its query comes from a filter
    of the endpoint that was passed under its own keyword.  (The keyword
    [self] cannot be passed: binding it raises [TypeError] before the
    body of the method runs.) *)
Theorem unknown_filter_ignored
    (send : http_request -> net_result) (e : list_endpoint)
    (self : SS12000Client) (params : gmap string pyval)
    (k : string) (v : pyval) :
  k <> "self" ->
  ~ In k (map snd (list_fields e)) ->
  call_list send e self (<[ k := v ]> params) = call_list send e self params
  /\ exists rq q,
       outgoing (snd (call_list send e self (<[ k := v ]> params))) = [rq]
       /\ rq_params rq = Some q
       /\ forall w, In w (keys q) ->
            exists l, In (w, l) (list_fields e) /\ l <> k
                      /\ kwargs_get params l <> PNone.
Proof.
  intros _ Hk.
  assert (Hsame : forall w l, In (w, l) (list_fields e) ->
            kwargs_get (<[ k := v ]> params) l = kwargs_get params l).
  { intros w l Hin. apply kwargs_get_insert_ne. intros ->. apply Hk.
    apply in_map_iff. now exists (w, l). }
  assert (Hmap :
    map (fun f => (fst f, kwargs_get (<[ k := v ]> params) (snd f)))
      (list_fields e)
    = map (fun f => (fst f, kwargs_get params (snd f))) (list_fields e)).
  { apply map_ext_in. intros [w l] Hin. simpl. f_equal. now apply (Hsame w). }
  split.
  - rewrite !call_list_eq. now rewrite Hmap.
  - rewrite call_list_eq, _request_outgoing, Hmap.
    eexists _, _. split; [reflexivity|]. split; [reflexivity|].
    intros w Hw. apply query_key_origin in Hw as (l & Hin & Hv).
    exists l. repeat split; try assumption.
    intros ->. apply Hk. apply in_map_iff. now exists (w, k).
Qed.

Lemma unknown_filter_ignored_witness :
  call_list (fun _ => NoResponse) Get_organisations
    {| base_url := "https://some.server.se/v2.0"; headers := [] |}
    (<[ "bogus" := PInt 1 ]> {[ "limit" := PInt 2 ]})
  = call_list (fun _ => NoResponse) Get_organisations
      {| base_url := "https://some.server.se/v2.0"; headers := [] |}
      {[ "limit" := PInt 2 ]}.
Proof.
  refine (proj1 (unknown_filter_ignored _ Get_organisations _ _ "bogus" _
                   _ _)).
  - discriminate.
  - simpl. intuition discriminate.
Defined.

(** C6, as stated, fails: [get_organisations(bogus=1)] against a server
    that answers [200] with [{}] raises nothing and returns the decoded
    body, after a request was sent. *)
Lemma unknown_filter_not_rejected :
  let out :=
    get_organisations
      (fun _ => Responded {| status_code := 200; text := "{}";
                             json := Some (PDict []) |})
      {| base_url := "https://some.server.se/v2.0"; headers := [] |}
      {[ "bogus" := PInt 1 ]} in
  ~ In "bogus" (map snd organisations_fields)
  /\ fst out = Returned (PDict [])
  /\ (forall err, fst out <> Raised err)
  /\ outgoing (snd out) <> [].
Proof.
  vm_compute. repeat split; try discriminate. intuition discriminate.
Qed.



(** A 404 whose body is the JSON object [{"error": "not found"}]. *)
Example not_found_json :
  let r := {| status_code := 404;
              text := "{" +:+ quoted "error" +:+ ":" +:+ quoted "not found"
                      +:+ "}";
              json := Some (PDict [("error", PStr "not found")]) |} in
  let out :=
    get_person_by_id (fun _ => Responded r)
      {| base_url := "https://some.server.se/v2.0"; headers := [] |}
      "p1" PNone (PBool false) in
  fst out = Raised (HTTPError r)
  /\ printed (snd out)
     = [ErrorDuringCall "GET" "https://some.server.se/persons/p1"
          (HTTPError r);
        ApiErrorResponse (PDict [("error", PStr "not found")])].
Proof. vm_compute. split; reflexivity. Qed.

(** C5, as the code has it.  On a 204 the call returns [None] without
    decoding the body.  A response with another status outside 400 to 599
    and a JSON body returns the decoded body, so the two results are the
    same exactly when that body is JSON [null]; an empty object is told
    apart. *)
Theorem no_content_returns_None
    (send send' : http_request -> net_result) (self : SS12000Client)
    (method path : string) (params json_data : option odict)
    (r r' : response) (v : pyval) :
  send (request_args self method (urljoin (base_url self) path)
          params json_data) = Responded r ->
  status_code r = 204%Z ->
  send' (request_args self method (urljoin (base_url self) path)
           params json_data) = Responded r' ->
  is_error_status r' = false ->
  status_code r' <> 204%Z ->
  json r' = Some v ->
  _request send self method path params json_data
  = (Returned PNone,
     [Sent (request_args self method (urljoin (base_url self) path)
              params json_data)])
  /\ fst (_request send' self method path params json_data) = Returned v
  /\ (fst (_request send self method path params json_data)
      = fst (_request send' self method path params json_data)
      <-> v = PNone)
  /\ (v = PDict [] ->
      fst (_request send self method path params json_data)
      <> fst (_request send' self method path params json_data)).
Proof.
  intros Hsend H204 Hsend' Herr' Hne Hjson.
  assert (H1 : _request send self method path params json_data
               = (Returned PNone,
                  [Sent (request_args self method
                           (urljoin (base_url self) path) params json_data)])).
  { unfold _request. rewrite Hsend. unfold is_error_status. rewrite H204.
    reflexivity. }
  assert (H2 : fst (_request send' self method path params json_data)
               = Returned v).
  { unfold _request. rewrite Hsend', Herr'.
    apply Z.eqb_neq in Hne. rewrite Hne, Hjson. reflexivity. }
  rewrite H1, H2. simpl. repeat split; congruence.
Qed.

Lemma no_content_returns_None_witness :
  let self := {| base_url := "https://some.server.se/v2.0";
                 headers := [] |} in
  let rq := request_args self "DELETE"
              "https://some.server.se/attendances/a1" None None in
  delete_attendance
    (fun _ => Responded {| status_code := 204; text := ""; json := None |})
    self "a1"
  = (Returned PNone, [Sent rq])
  /\ fst (delete_attendance
            (fun _ => Responded {| status_code := 200; text := "{}";
                                   json := Some (PDict []) |})
            self "a1")
     = Returned (PDict []).
Proof.
  intros self rq.
  destruct (no_content_returns_None
              (fun _ => Responded {| status_code := 204; text := "";
                                     json := None |})
              (fun _ => Responded {| status_code := 200; text := "{}";
                                     json := Some (PDict []) |})
              self "DELETE" "/attendances/a1" None None
              {| status_code := 204; text := ""; json := None |}
              {| status_code := 200; text := "{}"; json := Some (PDict []) |}
              (PDict []))
    as (H1 & H2 & _); try reflexivity; try discriminate.
  split; [exact H1 | exact H2].
Defined.

(** C5, as stated, fails: a DELETE answered [204] and a DELETE answered
    [200] with the JSON body [null] return the same value, [None]. *)
Lemma no_content_same_as_json_null :
  let self := {| base_url := "https://some.server.se/v2.0";
                 headers := [] |} in
  fst (delete_attendance
         (fun _ => Responded {| status_code := 204; text := "";
                                json := None |})
         self "a1")
  = Returned PNone
  /\ fst (delete_attendance
            (fun _ => Responded {| status_code := 200; text := "null";
                                   json := Some PNone |})
            self "a1")
     = Returned PNone.
Proof. vm_compute. split; reflexivity. Qed.

(** ** Lookup and get-by-id requests *)

(** C2. A lookup call sends one POST whose JSON body holds the
    identifier lists that are populated, and nothing else, and whose
    query holds [expand] and [expandReferenceNames] when set, and nothing
    else: no identifier list is a key of the query, neither option is a
    key of the body.  [lookup_persons(ids=["p1","p2"], expand=["duties"])]
    has the body [{"ids": ["p1","p2"]}] and the query
    [{"expand": ["duties"]}]. *)
Theorem lookup_body_and_query
    (send : http_request -> net_result) (e : lookup_endpoint)
    (self : SS12000Client) (a : lookup_args) :
  let sent := outgoing (snd (call_lookup send e self a)) in
  map rq_method sent = ["POST"]
  /\ map rq_json sent = [Some (spec_lookup_body e a)]
  /\ map rq_params sent = [Some (spec_lookup_query e a)]
  /\ (forall k, In k (keys (spec_lookup_body e a)) ->
        In k ["ids"; "civicNos"; "schoolUnitCodes"; "organisationCodes"]
        /\ ~ In k (keys (spec_lookup_query e a)))
  /\ (forall k, In k (keys (spec_lookup_query e a)) ->
        In k ["expand"; "expandReferenceNames"]
        /\ ~ In k (keys (spec_lookup_body e a)))
  /\ (let sent_persons :=
        outgoing (snd (lookup_persons send self
                         (PList [PStr "p1"; PStr "p2"]) PNone
                         (PList [PStr "duties"]) (PBool false))) in
      map rq_json sent_persons
      = [Some [("ids", PList [PStr "p1"; PStr "p2"])]]
      /\ map rq_params sent_persons
         = [Some [("expand", PList [PStr "duties"])]]).
Proof.
  assert (Hbody : forall k, In k (keys (spec_lookup_body e a)) ->
            In k ["ids"; "civicNos"; "schoolUnitCodes"; "organisationCodes"]).
  { destruct e; autounfold with client_methods; simpl; by_truth_values;
      intros k Hk; simpl in *; tauto. }
  assert (Hquery : forall k, In k (keys (spec_lookup_query e a)) ->
            In k ["expand"; "expandReferenceNames"]).
  { destruct e; autounfold with client_methods; simpl; by_truth_values;
      intros k Hk; simpl in *; tauto. }
  assert (Hdisj : forall k,
            In k ["ids"; "civicNos"; "schoolUnitCodes"; "organisationCodes"] ->
            In k ["expand"; "expandReferenceNames"] -> False).
  { intros k Hk1 Hk2. simpl in Hk1, Hk2.
    repeat match goal with
           | H : _ \/ _ |- _ => destruct H as [H|H]
           end; try contradiction; subst; discriminate. }
  cbv zeta. repeat split.
  - destruct e; cbn [call_lookup]; autounfold with client_methods;
      rewrite _request_outgoing; reflexivity.
  - destruct e; cbn [call_lookup]; autounfold with client_methods;
      rewrite _request_outgoing; simpl; by_truth_values; reflexivity.
  - destruct e; cbn [call_lookup]; autounfold with client_methods;
      rewrite _request_outgoing; simpl; by_truth_values; reflexivity.
  - now apply Hbody.
  - intros Hq. eapply Hdisj; eauto.
  - now apply Hquery.
  - intros Hb. eapply Hdisj; eauto.
  - unfold lookup_persons. rewrite _request_outgoing. reflexivity.
  - unfold lookup_persons. rewrite _request_outgoing. reflexivity.
Qed.

Lemma lookup_body_and_query_witness :
  let sent :=
    outgoing (snd (call_lookup (fun _ => NoResponse) Lookup_organisations
                     {| base_url := "https://some.server.se/v2.0";
                        headers := [] |}
                     (with_organisation_codes (PList [PStr "o1"])
                        (with_expand_reference_names (PBool true)
                           lookup_defaults)))) in
  map rq_json sent = [Some [("organisationCodes", PList [PStr "o1"])]]
  /\ map rq_params sent = [Some [("expandReferenceNames", PBool true)]].
Proof.
  intros sent.
  destruct (lookup_body_and_query (fun _ => NoResponse) Lookup_organisations
              {| base_url := "https://some.server.se/v2.0"; headers := [] |}
              (with_organisation_codes (PList [PStr "o1"])
                 (with_expand_reference_names (PBool true) lookup_defaults)))
    as (_ & Hj & Hp & _).
  split; [exact Hj | exact Hp].
Defined.

(** C9. In every lookup method an identifier list passed as the empty
    list is handled as one that is omitted: the whole call is the same,
    and the JSON body has no key for it.  This holds for [ids] and for
    [civic_nos], [school_unit_codes] and [organisation_codes]. *)
Theorem empty_identifier_list_as_omitted
    (send : http_request -> net_result) (e : lookup_endpoint)
    (self : SS12000Client) (a : lookup_args) :
  (call_lookup send e self (with_ids (PList []) a)
   = call_lookup send e self (with_ids PNone a)
   /\ exists body,
        map rq_json
          (outgoing (snd (call_lookup send e self (with_ids (PList []) a))))
        = [Some body]
        /\ ~ In "ids" (keys body))
  /\ (call_lookup send e self (with_civic_nos (PList []) a)
      = call_lookup send e self (with_civic_nos PNone a)
      /\ exists body,
           map rq_json
             (outgoing
                (snd (call_lookup send e self (with_civic_nos (PList []) a))))
           = [Some body]
           /\ ~ In "civicNos" (keys body))
  /\ (call_lookup send e self (with_school_unit_codes (PList []) a)
      = call_lookup send e self (with_school_unit_codes PNone a)
      /\ exists body,
           map rq_json
             (outgoing
                (snd (call_lookup send e self
                        (with_school_unit_codes (PList []) a))))
           = [Some body]
           /\ ~ In "schoolUnitCodes" (keys body))
  /\ (call_lookup send e self (with_organisation_codes (PList []) a)
      = call_lookup send e self (with_organisation_codes PNone a)
      /\ exists body,
           map rq_json
             (outgoing
                (snd (call_lookup send e self
                        (with_organisation_codes (PList []) a))))
           = [Some body]
           /\ ~ In "organisationCodes" (keys body)).
Proof.
  repeat split;
    try (destruct e; reflexivity);
    (destruct e; cbn [call_lookup]; autounfold with client_methods;
     rewrite _request_outgoing; simpl; by_truth_values;
     eexists; (split; [reflexivity|]); simpl; intuition discriminate).
Qed.

(** C10. In every lookup and get-by-id method the query has the key
    [expandReferenceNames] exactly when the argument is true, and the key
    [expand] exactly when the method takes [expand] and the argument is
    true.  So [expand_reference_names=False], and [expand] given as [None]
    or as the empty list, leave no key, like an omitted argument. *)
Theorem expand_keys_iff_true
    (send : http_request -> net_result) (self : SS12000Client) :
  (forall (e : lookup_endpoint) (a : lookup_args),
     exists q,
       map rq_params (outgoing (snd (call_lookup send e self a))) = [Some q]
       /\ (In "expandReferenceNames" (keys q)
           <-> truthy (expand_reference_names a) = true)
       /\ (In "expand" (keys q)
           <-> lookup_takes_expand e = true /\ truthy (expand a) = true))
  /\ (forall (e : by_id_endpoint) (id : string)
        (expand expand_reference_names : pyval),
        exists q,
          map rq_params
            (outgoing
               (snd (call_by_id send e self id expand expand_reference_names)))
          = [Some q]
          /\ (In "expandReferenceNames" (keys q)
              <-> truthy expand_reference_names = true)
          /\ (In "expand" (keys q)
              <-> by_id_takes_expand e = true /\ truthy expand = true))
  /\ (forall (e : lookup_endpoint) (a : lookup_args),
        call_lookup send e self (with_expand (PList []) a)
        = call_lookup send e self (with_expand PNone a)
        /\ exists q,
             map rq_params
               (outgoing
                  (snd (call_lookup send e self
                          (with_expand_reference_names (PBool false)
                             (with_expand (PList []) a)))))
             = [Some q]
             /\ ~ In "expandReferenceNames" (keys q)
             /\ ~ In "expand" (keys q))
  /\ (forall (e : by_id_endpoint) (id : string),
        call_by_id send e self id (PList []) (PBool false)
        = call_by_id send e self id PNone (PBool false)
        /\ exists q,
             map rq_params
               (outgoing
                  (snd (call_by_id send e self id PNone (PBool false))))
             = [Some q]
             /\ ~ In "expandReferenceNames" (keys q)
             /\ ~ In "expand" (keys q)).
Proof.
  split; [|split; [|split]].
  - intros e a.
    destruct e; cbn [call_lookup lookup_takes_expand];
      autounfold with client_methods; rewrite _request_outgoing; simpl;
      by_truth_values; eexists; (split; [reflexivity|]); simpl;
      intuition (try discriminate; try congruence).
  - intros e id expand expand_reference_names.
    destruct e; cbn [call_by_id by_id_takes_expand];
      autounfold with client_methods; rewrite _request_outgoing; simpl;
      by_truth_values; eexists; (split; [reflexivity|]); simpl;
      intuition (try discriminate; try congruence).
  - intros e a. split; [destruct e; reflexivity|].
    destruct e; cbn [call_lookup];
      autounfold with client_methods; rewrite _request_outgoing; simpl;
      eexists; (split; [reflexivity|]); simpl;
      intuition (try discriminate; try congruence).
  - intros e id. split; [destruct e; reflexivity|].
    destruct e; cbn [call_by_id];
      autounfold with client_methods; rewrite _request_outgoing; simpl;
      eexists; (split; [reflexivity|]); simpl;
      intuition (try discriminate; try congruence).
Qed.

Lemma empty_identifier_list_as_omitted_witness :
  call_lookup (fun _ => NoResponse) Lookup_placements
    {| base_url := "https://some.server.se/v2.0"; headers := [] |}
    (with_ids (PList []) lookup_defaults)
  = call_lookup (fun _ => NoResponse) Lookup_placements
      {| base_url := "https://some.server.se/v2.0"; headers := [] |}
      (with_ids PNone lookup_defaults).
Proof.
  exact (proj1 (proj1 (empty_identifier_list_as_omitted
                         (fun _ => NoResponse) Lookup_placements
                         {| base_url := "https://some.server.se/v2.0";
                            headers := [] |}
                         lookup_defaults))).
Defined.

Lemma expand_keys_iff_true_witness :
  exists q,
    map rq_params
      (outgoing
         (snd (call_by_id (fun _ => NoResponse) Get_organisation_by_id
                 {| base_url := "https://some.server.se/v2.0";
                    headers := [] |}
                 "o1" PNone (PBool false))))
    = [Some q]
    /\ ~ In "expandReferenceNames" (keys q)
    /\ ~ In "expand" (keys q).
Proof.
  destruct (expand_keys_iff_true (fun _ => NoResponse)
              {| base_url := "https://some.server.se/v2.0"; headers := [] |})
    as (_ & _ & _ & H).
  exact (proj2 (H Get_organisation_by_id "o1")).
Defined.

(** ** Subscriptions *)



(** ** The request URL *)

(** A path without a leading [/] is resolved below a base that ends in
    [/]; without that [/] the last segment of the base is replaced. *)
Example urljoin_relative :
  urljoin "https://some.server.se/v2.0/" "organisations"
  = "https://some.server.se/v2.0/organisations"
  /\ urljoin "https://some.server.se/v2.0" "organisations"
     = "https://some.server.se/organisations".
Proof. split; reflexivity. Qed.

(** A path with a leading [/] replaces the path of the base, whether or
    not the base ends in [/]. *)
Example urljoin_rooted :
  urljoin "https://some.server.se/v2.0" "/persons/p1"
  = "https://some.server.se/persons/p1"
  /\ urljoin "https://some.server.se/v2.0/" "/persons/p1"
     = "https://some.server.se/persons/p1".
Proof. split; reflexivity. Qed.

(** C7 fails on the code.  The client built for the base URL of the
    class documentation, [https://some.server.se/v2.0], sends the request
    of every list endpoint to [https://some.server.se] followed by the
    endpoint path: [urljoin] replaces the path [/v2.0] of the base by the
    path of the endpoint, which starts with [/]. *)
Theorem base_path_dropped
    (send : http_request -> net_result) (e : list_endpoint)
    (params : gmap string pyval) :
  exists self,
    SS12000Client_init "https://some.server.se/v2.0" (Some "token")
    = Some self
    /\ map rq_url (outgoing (snd (call_list send e self params)))
       = ["https://some.server.se" +:+ list_path e]
    /\ map rq_url (outgoing (snd (get_organisations send self params)))
       = ["https://some.server.se/organisations"].
Proof.
  eexists. split; [reflexivity|]. split.
  - rewrite call_list_eq, _request_outgoing. destruct e; reflexivity.
  - unfold get_organisations, get_list. rewrite _request_outgoing.
    reflexivity.
Qed.

(** * Further properties of the client *)

(** ** The dispatcher *)



Lemma is_error_status_true r :
  is_error_status r = true <-> (400 <= status_code r < 600)%Z.
Proof.
  unfold is_error_status. rewrite andb_true_iff, Z.leb_le, Z.ltb_lt.
  reflexivity.
Qed.

(** The ways a call of [_request] can go. *)
Lemma request_cases send self method path params json_data :
  let rq := request_args self method (urljoin (base_url self) path)
              params json_data in
  let out := _request send self method path params json_data in
  (send rq = NoResponse /\ fst out = Raised ConnectionError)
  \/ (exists r, send rq = FailedWith r
                /\ fst out = Raised (TooManyRedirects r))
  \/ (exists r, send rq = Responded r /\ (400 <= status_code r < 600)%Z
                /\ fst out = Raised (HTTPError r))
  \/ (exists r, send rq = Responded r /\ ~ (400 <= status_code r < 600)%Z
                /\ status_code r = 204%Z /\ fst out = Returned PNone)
  \/ (exists r v, send rq = Responded r /\ ~ (400 <= status_code r < 600)%Z
                  /\ status_code r <> 204%Z /\ json r = Some v
                  /\ fst out = Returned v)
  \/ (exists r, send rq = Responded r /\ ~ (400 <= status_code r < 600)%Z
                /\ status_code r <> 204%Z /\ json r = None
                /\ fst out = Raised JSONDecodeError).
Proof.
  unfold _request, on_request_exception.
  destruct (send _) as [|r|r] eqn:Hs; simpl; [left; now split| |].
  { right. left. exists r. now split. }
  right. right.
  destruct (is_error_status r) eqn:He; simpl.
  { left. exists r. apply is_error_status_true in He. now repeat split. }
  right.
  assert (Hne : ~ (400 <= status_code r < 600)%Z).
  { intros H. apply is_error_status_true in H. congruence. }
  destruct (Z.eqb_spec (status_code r) 204) as [H204|H204]; simpl.
  { left. exists r. now repeat split. }
  right.
  destruct (json r) as [v|] eqn:Hj; simpl.
  - left. exists r, v. now repeat split.
  - right. exists r. now repeat split.
Qed.

(** X2. [_request] returns a value exactly when a response came back
    whose status is outside 400 to 599 and which is either a 204, giving
    [None], or has a body that decodes, giving the decoded body.  The
    status is not required to be a 2xx. *)
Theorem request_returns_iff
    (send : http_request -> net_result) (self : SS12000Client)
    (method path : string) (params json_data : option odict) (v : pyval) :
  fst (_request send self method path params json_data) = Returned v
  <-> exists r,
        send (request_args self method (urljoin (base_url self) path)
                params json_data) = Responded r
        /\ ~ (400 <= status_code r < 600)%Z
        /\ ((status_code r = 204%Z /\ v = PNone)
            \/ (status_code r <> 204%Z /\ json r = Some v)).
Proof.
  pose proof (request_cases send self method path params json_data) as H.
  cbv zeta in H.
  destruct H as [[Hs Ho]|[(r & Hs & Ho)|[(r & Hs & Hst & Ho)
                |[(r & Hs & Hst & H204 & Ho)
                |[(r & v' & Hs & Hst & H204 & Hj & Ho)
                 |(r & Hs & Hst & H204 & Hj & Ho)]]]]];
    rewrite Ho, Hs; split.
  - discriminate.
  - intros (r & Hr & _). discriminate.
  - discriminate.
  - intros (r' & Hr & _). discriminate.
  - discriminate.
  - intros (r' & Hr & Hst' & _). injection Hr as <-. contradiction.
  - intros Hv. injection Hv as <-. exists r. split; [reflexivity|].
    split; [assumption|]. left. now split.
  - intros (r' & Hr & _ & [[_ ->]|[Hne _]]); [reflexivity|].
    injection Hr as <-. contradiction.
  - intros Hv. injection Hv as <-. exists r. split; [reflexivity|].
    split; [assumption|]. right. now split.
  - intros (r' & Hr & _ & [[H' _]|[_ Hj']]); injection Hr as <-.
    + contradiction.
    + congruence.
  - discriminate.
  - intros (r' & Hr & _ & [[H' _]|[_ Hj']]); injection Hr as <-.
    + contradiction.
    + congruence.
Qed.



(** ** Construction of the client *)

(** X5. The constructor refuses the empty base URL and nothing else.  The
    client it builds keeps the base URL as given, with the headers
    [Content-Type] and [Accept] first; it has an [Authorization] header
    exactly when a non-empty token was given, and its value is then
    [Bearer] followed by the token. *)
Theorem init_result (base : string) (auth_token : option string) :
  (SS12000Client_init base auth_token = None <-> base = "")
  /\ forall self, SS12000Client_init base auth_token = Some self ->
       base_url self = base
       /\ (exists rest,
             headers self
             = ("Content-Type", "application/json")
               :: ("Accept", "application/json") :: rest)
       /\ forall value,
            In ("Authorization", value) (headers self)
            <-> exists token,
                  auth_token = Some token /\ token <> ""
                  /\ value = "Bearer " +:+ token.
Proof.
  unfold SS12000Client_init.
  destruct (String.eqb_spec base "") as [->|Hb].
  - split; [tauto|]. discriminate.
  - split; [split; [discriminate | contradiction]|].
    intros self Hself. injection Hself as <-. simpl.
    split; [reflexivity|].
    destruct auth_token as [t|].
    + destruct (String.eqb_spec t "") as [->|Ht]; simpl.
      * split; [eexists; reflexivity|]. intros value. split.
        -- intros [H|[H|[]]]; discriminate.
        -- intros (token & Htok & Hne & _). congruence.
      * split; [eexists; reflexivity|]. intros value. split.
        -- intros [H|[H|[H|[]]]]; try discriminate.
           injection H as <-. now exists t.
        -- intros (token & Htok & _ & ->). injection Htok as ->.
           right. right. now left.
    + simpl. split; [eexists; reflexivity|]. intros value. split.
      * intros [H|[H|[]]]; discriminate.
      * intros (token & Htok & _). discriminate.
Qed.

Lemma call_list_headers send e self params :
  map rq_headers (outgoing (snd (call_list send e self params)))
  = [headers self]
  /\ map rq_timeout (outgoing (snd (call_list send e self params)))
     = [30%Z].
Proof. rewrite call_list_eq, _request_outgoing. now split. Qed.

Lemma call_lookup_headers send e self a :
  map rq_headers (outgoing (snd (call_lookup send e self a)))
  = [headers self]
  /\ map rq_timeout (outgoing (snd (call_lookup send e self a))) = [30%Z].
Proof.
  destruct e; cbn [call_lookup]; autounfold with client_methods;
    rewrite _request_outgoing; now split.
Qed.

Lemma call_by_id_headers send e self id ex ern :
  map rq_headers (outgoing (snd (call_by_id send e self id ex ern)))
  = [headers self]
  /\ map rq_timeout (outgoing (snd (call_by_id send e self id ex ern)))
     = [30%Z].
Proof.
  destruct e; cbn [call_by_id]; autounfold with client_methods;
    rewrite _request_outgoing; now split.
Qed.

(** X6. Every list, lookup and get-by-id call of a client constructed
    with a non-empty token sends its request with exactly the headers
    [Content-Type: application/json], [Accept: application/json] and
    [Authorization: Bearer <token>], and with the timeout 30. *)
Theorem token_sent_with_every_request
    (send : http_request -> net_result)
    (base token : string) (self : SS12000Client) :
  SS12000Client_init base (Some token) = Some self ->
  token <> "" ->
  let sent_headers :=
    [("Content-Type", "application/json"); ("Accept", "application/json");
     ("Authorization", "Bearer " +:+ token)] in
  (forall e params,
     map rq_headers (outgoing (snd (call_list send e self params)))
     = [sent_headers]
     /\ map rq_timeout (outgoing (snd (call_list send e self params)))
        = [30%Z])
  /\ (forall e a,
        map rq_headers (outgoing (snd (call_lookup send e self a)))
        = [sent_headers]
        /\ map rq_timeout (outgoing (snd (call_lookup send e self a)))
           = [30%Z])
  /\ (forall e id ex ern,
        map rq_headers (outgoing (snd (call_by_id send e self id ex ern)))
        = [sent_headers]
        /\ map rq_timeout
             (outgoing (snd (call_by_id send e self id ex ern)))
           = [30%Z]).
Proof.
  intros Hinit Htok.
  assert (Hh : headers self
               = [("Content-Type", "application/json");
                  ("Accept", "application/json");
                  ("Authorization", "Bearer " +:+ token)]).
  { unfold SS12000Client_init in Hinit.
    destruct (base =? ""); [discriminate|].
    destruct (String.eqb_spec token ""); [contradiction|].
    injection Hinit as <-. reflexivity. }
  cbv zeta. rewrite <- Hh.
  split; [|split]; intros.
  - apply call_list_headers.
  - apply call_lookup_headers.
  - apply call_by_id_headers.
Qed.

Lemma token_sent_with_every_request_witness :
  map rq_headers
    (outgoing
       (snd (call_list (fun _ => NoResponse) Get_persons
               {| base_url := "https://some.server.se/v2.0";
                  headers :=
                    [("Content-Type", "application/json");
                     ("Accept", "application/json");
                     ("Authorization", "Bearer abc")] |}
               {[ "limit" := PInt 2 ]})))
  = [[("Content-Type", "application/json"); ("Accept", "application/json");
      ("Authorization", "Bearer abc")]].
Proof.
  refine (proj1 (proj1 (token_sent_with_every_request (fun _ => NoResponse)
                          "https://some.server.se/v2.0" "abc" _ _ _)
                   Get_persons _)).
  - reflexivity.
  - discriminate.
Defined.

(** X7. The warnings of the constructor never stop it: any non-empty
    base URL is accepted.  No warning is printed exactly when the base
    URL starts with [https://] (in lower case) and a non-empty token is
    given; and none is printed before the empty base URL is refused. *)
Theorem init_warnings_not_fatal (base : string) (auth_token : option string) :
  base <> "" ->
  (exists self, SS12000Client_init base auth_token = Some self)
  /\ (SS12000Client_init_warnings base auth_token = []
      <-> String.prefix "https://" base = true
          /\ exists token, auth_token = Some token /\ token <> "")
  /\ (In NoHttpsWarning (SS12000Client_init_warnings base auth_token)
      <-> String.prefix "https://" base = false)
  /\ SS12000Client_init_warnings "" auth_token = [].
Proof.
  intros Hb. unfold SS12000Client_init, SS12000Client_init_warnings.
  destruct (String.eqb_spec base "") as [|_]; [contradiction|].
  split; [eexists; reflexivity|].
  split; [|split; [|reflexivity]].
  - destruct (String.prefix "https://" base); simpl;
      destruct auth_token as [t|]; simpl;
      try destruct (String.eqb_spec t "") as [->|Ht]; simpl; split;
      try discriminate;
      try (intros [H _]; discriminate);
      try (intros [_ (token & Htok & Hne)]; congruence).
    intros _. split; [reflexivity|]. now exists t.
  - destruct (String.prefix "https://" base); simpl;
      destruct auth_token as [t|]; simpl;
      try destruct (String.eqb_spec t "") as [->|Ht]; simpl; split;
      try discriminate; try reflexivity; try tauto;
      try (intros [H|H]; [discriminate | contradiction]);
      try (intros _; now left).
Qed.

Lemma init_warnings_not_fatal_witness :
  (exists self,
     SS12000Client_init "HTTPS://some.server.se/v2.0" (Some "abc")
     = Some self)
  /\ In NoHttpsWarning
       (SS12000Client_init_warnings "HTTPS://some.server.se/v2.0"
          (Some "abc")).
Proof.
  destruct (init_warnings_not_fatal "HTTPS://some.server.se/v2.0"
              (Some "abc")) as (H1 & _ & H3 & _); [discriminate|].
  split; [exact H1|]. apply H3. reflexivity.
Defined.

(** ** Deleted entities *)


(** ** More on the list endpoints *)

Lemma od_get_In d k v :
  List.NoDup (keys d) -> In (k, v) d -> od_get k d = Some v.
Proof.
  induction d as [|[k' v'] d IH]; simpl; intros Hnd Hin; [contradiction|].
  inversion Hnd as [|? ? Hnotin Hnd']; subst.
  destruct Hin as [Heq|Hin].
  - injection Heq as -> ->. now rewrite String.eqb_refl.
  - destruct (String.eqb_spec k k') as [->|_]; [|now apply IH].
    exfalso. apply Hnotin. unfold keys. apply in_map_iff. now exists (k', v).
Qed.

Lemma keys_filter_sublist (p : string * pyval -> bool) d :
  sublist (keys (List.filter p d)) (keys d).
Proof.
  induction d as [|kv d IH]; simpl; [constructor|].
  destruct (p kv); simpl; now constructor.
Qed.


Lemma mapped_keys fields (params : gmap string pyval) :
  keys (map (fun f => (fst f, kwargs_get params (snd f))) fields)
  = map fst fields.
Proof. unfold keys. rewrite map_map. reflexivity. Qed.

(** X9. A filter passed with any value other than [None] is sent under
    its wire name with that value unchanged; this includes [False], [0],
    the empty string and the empty list, which the lookup methods would
    leave out. *)
Theorem passed_filter_in_query
    (send : http_request -> net_result) (e : list_endpoint)
    (self : SS12000Client) (params : gmap string pyval)
    (w l : string) (v : pyval) :
  In (w, l) (list_fields e) ->
  params !! l = Some v ->
  v <> PNone ->
  exists rq q,
    outgoing (snd (call_list send e self params)) = [rq]
    /\ rq_params rq = Some q
    /\ od_get w q = Some v.
Proof.
  intros Hin Hl Hv. rewrite call_list_eq, _request_outgoing.
  eexists _, _. split; [reflexivity|]. split; [reflexivity|].
  apply od_get_In.
  - apply keys_filter_NoDup. rewrite mapped_keys.
    apply list_fields_wire_NoDup.
  - apply filter_In. split.
    + apply in_map_iff. exists (w, l). split; [|assumption].
      simpl. unfold kwargs_get. now rewrite Hl.
    + simpl. destruct v; try reflexivity. congruence.
Qed.

Lemma passed_filter_in_query_witness :
  exists rq q,
    outgoing
      (snd (call_list (fun _ => NoResponse) Get_persons
              {| base_url := "https://some.server.se/v2.0"; headers := [] |}
              {[ "expand_reference_names" := PBool false ]})) = [rq]
    /\ rq_params rq = Some q
    /\ od_get "expandReferenceNames" q = Some (PBool false).
Proof.
  apply (passed_filter_in_query _ Get_persons _ _ "expandReferenceNames"
           "expand_reference_names" (PBool false)).
  - simpl. tauto.
  - reflexivity.
  - discriminate.
Defined.

(** X10. The query of a list call holds no [None] value and no key
    twice, and its keys come in the order of the fields of the method,
    whatever the order in which the caller passed the keywords. *)
Theorem list_query_invariants
    (send : http_request -> net_result) (e : list_endpoint)
    (self : SS12000Client) (params : gmap string pyval) :
  exists q,
    map rq_params (outgoing (snd (call_list send e self params))) = [Some q]
    /\ (forall k v, In (k, v) q -> v <> PNone)
    /\ List.NoDup (keys q)
    /\ sublist (keys q) (map fst (list_fields e)).
Proof.
  rewrite call_list_eq, _request_outgoing.
  eexists. split; [reflexivity|]. split; [|split].
  - intros k v Hin Hv. apply filter_In in Hin as [_ Hnn]. simpl in Hnn.
    now rewrite Hv in Hnn.
  - apply keys_filter_NoDup. rewrite mapped_keys.
    apply list_fields_wire_NoDup.
  - rewrite <- (mapped_keys (list_fields e) params).
    apply keys_filter_sublist.
Qed.

Lemma list_items_ext e (p1 p2 : gmap string pyval) :
  (forall l, In l (map snd (list_fields e)) ->
     kwargs_get p1 l = kwargs_get p2 l) ->
  map (fun f => (fst f, kwargs_get p1 (snd f))) (list_fields e)
  = map (fun f => (fst f, kwargs_get p2 (snd f))) (list_fields e).
Proof.
  intros Hagree. apply map_ext_in. intros [w l] Hin. simpl. f_equal.
  apply Hagree. apply in_map_iff. now exists (w, l).
Qed.

(** X11. A list call depends on the keywords only through the filters of
    its method: two calls whose keywords agree on these, read with
    [.get], are the same call, with the same request and the same
    outcome. *)
Theorem list_call_depends_on_filters_only
    (send : http_request -> net_result) (e : list_endpoint)
    (self : SS12000Client) (p1 p2 : gmap string pyval) :
  (forall l, In l (map snd (list_fields e)) ->
     kwargs_get p1 l = kwargs_get p2 l) ->
  call_list send e self p1 = call_list send e self p2.
Proof.
  intros Hagree. rewrite !call_list_eq.
  now rewrite (list_items_ext e p1 p2 Hagree).
Qed.

Lemma list_call_depends_on_filters_only_witness :
  call_list (fun _ => NoResponse) Get_subscriptions
    {| base_url := "https://some.server.se/v2.0"; headers := [] |}
    {[ "limit" := PInt 2; "sortkey" := PStr "x" ]}
  = call_list (fun _ => NoResponse) Get_subscriptions
      {| base_url := "https://some.server.se/v2.0"; headers := [] |}
      {[ "limit" := PInt 2 ]}.
Proof.
  apply (list_call_depends_on_filters_only _ Get_subscriptions).
  simpl. intros l [<-|[<-|[]]]; reflexivity.
Defined.

(** X12. For a list call, passing a keyword as [None] is the same as not
    passing it: the two calls are equal, for every keyword other than
    [self] (which cannot be passed), a filter of the method or not. *)
Theorem None_keyword_as_omitted
    (send : http_request -> net_result) (e : list_endpoint)
    (self : SS12000Client) (params : gmap string pyval) (l : string) :
  l <> "self" ->
  call_list send e self (<[ l := PNone ]> params)
  = call_list send e self (delete l params).
Proof.
  intros _.
  rewrite !call_list_eq.
  rewrite (list_items_ext e (<[ l := PNone ]> params) (delete l params));
    [reflexivity|].
  intros l' _. unfold kwargs_get.
  destruct (String.eqb_spec l l') as [->|Hne].
  - now rewrite lookup_insert_eq, lookup_delete_eq.
  - rewrite lookup_insert_ne; [|assumption].
    rewrite lookup_delete_ne; [|assumption]. reflexivity.
Qed.

Lemma None_keyword_as_omitted_witness :
  call_list (fun _ => NoResponse) Get_persons
    {| base_url := "https://some.server.se/v2.0"; headers := [] |}
    (<[ "civic_no" := PNone ]> {[ "limit" := PInt 2 ]})
  = call_list (fun _ => NoResponse) Get_persons
      {| base_url := "https://some.server.se/v2.0"; headers := [] |}
      (delete "civic_no" {[ "limit" := PInt 2 ]}).
Proof.
  apply (None_keyword_as_omitted (fun _ => NoResponse) Get_persons).
  discriminate.
Defined.


(** ** More on the lookup and get-by-id endpoints *)

(** X14. A lookup call always sends a JSON body, and sends the empty
    object exactly when every identifier list the method takes is empty
    or omitted: a lookup without identifiers is not refused, it is sent
    with the body [{}] (and, without options, an empty query). *)
Theorem lookup_body_empty_iff
    (send : http_request -> net_result) (e : lookup_endpoint)
    (self : SS12000Client) (a : lookup_args) :
  (exists body,
     map rq_json (outgoing (snd (call_lookup send e self a))) = [Some body]
     /\ (body = []
         <-> truthy (ids a) = false
             /\ (e = Lookup_persons -> truthy (civic_nos a) = false)
             /\ (e = Lookup_organisations ->
                 truthy (school_unit_codes a) = false
                 /\ truthy (organisation_codes a) = false)))
  /\ map rq_json
       (outgoing (snd (call_lookup send e self lookup_defaults)))
     = [Some []]
  /\ map rq_params
       (outgoing (snd (call_lookup send e self lookup_defaults)))
     = [Some []].
Proof.
  split; [|split].
  - destruct e; cbn [call_lookup]; autounfold with client_methods;
      rewrite _request_outgoing; simpl; by_truth_values;
      eexists; (split; [reflexivity|]);
      intuition (try discriminate; try congruence).
  - destruct e; cbn [call_lookup]; autounfold with client_methods;
      rewrite _request_outgoing; reflexivity.
  - destruct e; cbn [call_lookup]; autounfold with client_methods;
      rewrite _request_outgoing; reflexivity.
Qed.


(** ** Resources addressed by id *)

(** X16. Deleting addresses the resource that fetching addresses:
    [delete_attendance] and [get_attendance_by_id] of one id go to the
    same URL, and so do [delete_subscription], [update_subscription] and
    [get_subscription_by_id].  The deletions and the subscription fetch
    send neither query nor body; the update is a PATCH whose body is
    [{"expires": expires}], also when [expires] is [None]. *)
Theorem delete_addresses_fetched_resource
    (send : http_request -> net_result) (self : SS12000Client)
    (id : string) (expand expand_reference_names expires : pyval) :
  let sent_by (out : result * list event) := outgoing (snd out) in
  map rq_url (sent_by (delete_attendance send self id))
  = map rq_url
      (sent_by (get_attendance_by_id send self id expand
                  expand_reference_names))
  /\ map rq_url (sent_by (delete_subscription send self id))
     = map rq_url (sent_by (get_subscription_by_id send self id))
  /\ map rq_url (sent_by (update_subscription send self id expires))
     = map rq_url (sent_by (get_subscription_by_id send self id))
  /\ map rq_method (sent_by (delete_attendance send self id)) = ["DELETE"]
  /\ map rq_method (sent_by (delete_subscription send self id)) = ["DELETE"]
  /\ map rq_method (sent_by (update_subscription send self id expires))
     = ["PATCH"]
  /\ map (fun rq => (rq_params rq, rq_json rq))
       (sent_by (delete_attendance send self id)
        ++ sent_by (delete_subscription send self id)
        ++ sent_by (get_subscription_by_id send self id))
     = [(None, None); (None, None); (None, None)]
  /\ map (fun rq => (rq_params rq, rq_json rq))
       (sent_by (update_subscription send self id expires))
     = [(None, Some [("expires", expires)])].
Proof.
  cbv zeta.
  unfold delete_attendance, get_attendance_by_id, delete_subscription,
    get_subscription_by_id, update_subscription.
  rewrite !_request_outgoing. repeat split; reflexivity.
Qed.

(** ** The request URL, in general *)

Lemma urlparse_rooted path scheme :
  String.prefix "/" path = true ->
  String.prefix "//" path = false ->
  urlparse path scheme = UrlParts scheme "" path.
Proof.
  intros Hp Hpp. destruct path as [|c rest]; [discriminate|].
  assert (Hc : c = "/"%char).
  { revert Hp. cbn [String.prefix].
    destruct (ascii_dec "/" c) as [<-|]; [reflexivity | discriminate]. }
  subst c. unfold urlparse.
  change (span scheme_char (String "/" rest)) with ("", String "/" rest).
  cbv iota beta. rewrite Hpp. reflexivity.
Qed.

Lemma urljoin_rooted_path base path :
  base <> "" ->
  String.prefix "/" path = true ->
  String.prefix "//" path = false ->
  urljoin base path
  = let b := urlparse base "" in
    let segments := split_on "/" path in
    let resolved :=
      if (List.last segments "" =? ".") || (List.last segments "" =? "..")
      then resolve_segments segments ++ [""]
      else resolve_segments segments in
    let joined := String.concat "/" resolved in
    if negb (str_in (u_scheme b) uses_relative) then path
    else
      urlunparse
        (UrlParts (u_scheme b)
           (if str_in (u_scheme b) uses_netloc then u_netloc b else "")
           (if joined =? "" then "/" else joined)).
Proof.
  intros Hb Hp Hpp. unfold urljoin.
  destruct (String.eqb_spec base "") as [|_]; [contradiction|].
  destruct (String.eqb_spec path "") as [->|_]; [discriminate|].
  rewrite (urlparse_rooted path _ Hp Hpp). cbv zeta. simpl u_scheme.
  simpl u_netloc. simpl u_path.
  rewrite String.eqb_refl. simpl negb at 1. rewrite orb_false_l.
  destruct (str_in (u_scheme (urlparse base "")) uses_relative);
    [|reflexivity].
  simpl negb. rewrite andb_false_r.
  destruct (String.eqb_spec path "") as [->|_]; [discriminate|].
  rewrite Hp. reflexivity.
Qed.

(** X17. For base URLs and a path that [urljoin] accepts
    ([url_modelled]), the path of the base URL never reaches the URL of a
    request whose path starts with a single [/], as the path of every
    endpoint does: two clients whose non-empty base URLs have the same
    scheme and host send the request of the same call to the same URL,
    whatever follows the host in either base URL. *)
Theorem request_url_ignores_base_path
    (send : http_request -> net_result) (self1 self2 : SS12000Client)
    (method path : string) (params json_data : option odict) :
  url_modelled (base_url self1) = true ->
  url_modelled (base_url self2) = true ->
  url_modelled path = true ->
  base_url self1 <> "" ->
  base_url self2 <> "" ->
  u_scheme (urlparse (base_url self1) "")
  = u_scheme (urlparse (base_url self2) "") ->
  u_netloc (urlparse (base_url self1) "")
  = u_netloc (urlparse (base_url self2) "") ->
  String.prefix "/" path = true ->
  String.prefix "//" path = false ->
  map rq_url
    (outgoing (snd (_request send self1 method path params json_data)))
  = map rq_url
      (outgoing (snd (_request send self2 method path params json_data)))
  /\ forall e, String.prefix "/" (list_path e) = true
               /\ String.prefix "//" (list_path e) = false.
Proof.
  intros _ _ _ H1 H2 Hs Hn Hp Hpp.
  split; [|destruct e; split; reflexivity].
  rewrite !_request_outgoing. simpl. f_equal.
  rewrite !urljoin_rooted_path by assumption.
  cbv zeta. now rewrite Hs, Hn.
Qed.

Lemma request_url_ignores_base_path_witness :
  map rq_url
    (outgoing
       (snd (_request (fun _ => NoResponse)
               {| base_url := "https://some.server.se/v2.0"; headers := [] |}
               "GET" "/organisations" (Some []) None)))
  = map rq_url
      (outgoing
         (snd (_request (fun _ => NoResponse)
                 {| base_url := "https://some.server.se/other/api/";
                    headers := [] |}
                 "GET" "/organisations" (Some []) None))).
Proof.
  refine (proj1 (request_url_ignores_base_path (fun _ => NoResponse)
                   {| base_url := "https://some.server.se/v2.0";
                      headers := [] |}
                   {| base_url := "https://some.server.se/other/api/";
                      headers := [] |}
                   "GET" "/organisations" (Some []) None _ _ _ _ _ _ _ _ _));
    try discriminate; reflexivity.
Defined.

Lemma split_on_nonempty sep s : split_on sep s <> [].
Proof.
  destruct s as [|c s]; simpl; [discriminate|].
  destruct (Ascii.eqb c sep); [discriminate|].
  destruct (split_on sep s); discriminate.
Qed.

(** Splitting at [sep] a string that has [sep] between two parts. *)
Lemma split_on_app sep s1 s2 :
  split_on sep (s1 +:+ String sep s2) = split_on sep s1 ++ split_on sep s2.
Proof.
  induction s1 as [|c s1 IH]; simpl.
  - now rewrite Ascii.eqb_refl.
  - destruct (Ascii.eqb c sep); [now rewrite IH|].
    rewrite IH. destruct (split_on sep s1) as [|h t] eqn:Hs; [|reflexivity].
    now apply split_on_nonempty in Hs.
Qed.

(** ['/'.join(s.split('/'))] is [s]. *)
Lemma concat_split_on s : String.concat "/" (split_on "/" s) = s.
Proof.
  induction s as [|c s IH]; [reflexivity|]. simpl split_on.
  destruct (Ascii.eqb_spec c "/") as [->|Hc].
  - destruct (split_on "/" s) as [|h t] eqn:Hs;
      [now apply split_on_nonempty in Hs|].
    change (String.concat "/" ("" :: h :: t))
      with ("/" +:+ String.concat "/" (h :: t)).
    now rewrite IH.
  - destruct (split_on "/" s) as [|h t] eqn:Hs;
      [now apply split_on_nonempty in Hs|].
    rewrite <- IH. destruct t; reflexivity.
Qed.

Lemma resolve_plain_from segments resolved :
  forallb plain_segment segments = true ->
  fold_left
    (fun resolved seg =>
       if seg =? ".." then removelast resolved
       else if seg =? "." then resolved
       else resolved ++ [seg])
    segments resolved
  = resolved ++ segments.
Proof.
  revert resolved. induction segments as [|seg segments IH];
    intros resolved Hall; simpl.
  - now rewrite app_nil_r.
  - simpl in Hall. apply andb_prop in Hall as [Hseg Hall].
    unfold plain_segment in Hseg. apply andb_prop in Hseg as [H1 H2].
    apply negb_true_iff in H1, H2. rewrite H1, H2.
    rewrite IH by assumption. now rewrite <- app_assoc.
Qed.

Lemma last_plain segments :
  segments <> [] ->
  forallb plain_segment segments = true ->
  (List.last segments "" =? ".") || (List.last segments "" =? "..") = false.
Proof.
  intros Hne Hall.
  assert (Hin : In (List.last segments "") segments).
  { destruct segments as [|a l]; [contradiction|].
    clear. revert a. induction l as [|b l IH]; intros a.
    - now left.
    - right. apply IH. }
  rewrite forallb_forall in Hall. apply Hall in Hin.
  unfold plain_segment in Hin. apply andb_prop in Hin as [H1 H2].
  apply negb_true_iff in H1, H2. now rewrite H1, H2.
Qed.

Lemma urlunparse_http scheme netloc path :
  In scheme ["http"; "https"] ->
  String.prefix "/" path = true ->
  String.prefix "//" path = false ->
  urlunparse (UrlParts scheme netloc path)
  = scheme +:+ "://" +:+ netloc +:+ path.
Proof.
  intros Hs Hp Hpp. unfold urlunparse. cbn [u_scheme u_netloc u_path].
  rewrite Hp, Hpp. simpl negb. rewrite andb_false_r, andb_true_r.
  destruct Hs as [<-|[<-|[]]];
    change (str_in "http" uses_netloc) with true;
    change (str_in "https" uses_netloc) with true;
    destruct (netloc =? ""); reflexivity.
Qed.

(** X18. For a base URL and a path that [urljoin] accepts
    ([url_modelled]: printable ASCII without space, [?], [#], [;] and
    brackets), where the base URL has the scheme [http] or [https], a
    request whose path starts with a single [/] and has no [.] or [..]
    segment goes to the scheme and host of the base URL followed by the
    path, character for character: nothing of the path is escaped or
    normalised, and nothing of the base URL after the host is kept. *)
Theorem plain_path_url
    (send : http_request -> net_result) (self : SS12000Client)
    (method path : string) (params json_data : option odict) :
  url_modelled (base_url self) = true ->
  url_modelled path = true ->
  base_url self <> "" ->
  In (u_scheme (urlparse (base_url self) "")) ["http"; "https"] ->
  String.prefix "/" path = true ->
  String.prefix "//" path = false ->
  forallb plain_segment (split_on "/" path) = true ->
  map rq_url
    (outgoing (snd (_request send self method path params json_data)))
  = [u_scheme (urlparse (base_url self) "") +:+ "://"
     +:+ u_netloc (urlparse (base_url self) "") +:+ path].
Proof.
  intros _ _ Hb Hs Hp Hpp Hplain.
  rewrite _request_outgoing. simpl. f_equal.
  rewrite urljoin_rooted_path by assumption. cbv zeta.
  rewrite (last_plain _ (split_on_nonempty _ _) Hplain).
  unfold resolve_segments. rewrite (resolve_plain_from _ [] Hplain).
  simpl app. rewrite concat_split_on.
  assert (Hne : (path =? "") = false)
    by (destruct path; [discriminate | reflexivity]).
  rewrite Hne.
  assert (Hrel : str_in (u_scheme (urlparse (base_url self) ""))
                   uses_relative = true)
    by (destruct Hs as [<-|[<-|[]]]; reflexivity).
  assert (Hnet : str_in (u_scheme (urlparse (base_url self) ""))
                   uses_netloc = true)
    by (destruct Hs as [<-|[<-|[]]]; reflexivity).
  rewrite Hrel, Hnet. simpl negb. cbv iota.
  now apply urlunparse_http.
Qed.

Lemma plain_path_url_witness :
  map rq_url
    (outgoing
       (snd (_request (fun _ => NoResponse)
               {| base_url := "https://some.server.se/v2.0"; headers := [] |}
               "GET" "/persons/p%201" (Some []) None)))
  = ["https://some.server.se/persons/p%201"].
Proof.
  refine (plain_path_url (fun _ => NoResponse)
            {| base_url := "https://some.server.se/v2.0"; headers := [] |}
            "GET" "/persons/p%201" (Some []) None _ _ _ _ _ _ _);
    try discriminate; try reflexivity.
  simpl. tauto.
Defined.

Lemma append_assoc (a b c : string) : (a +:+ b) +:+ c = a +:+ (b +:+ c).
Proof.
  induction a as [|x a IH]; [reflexivity|].
  change (String x ((a +:+ b) +:+ c) = String x (a +:+ (b +:+ c))).
  now rewrite IH.
Qed.

Lemma split_on_parent sep (p rest : string) :
  split_on sep (p +:+ (".." +:+ String sep rest))
  = split_on sep (p +:+ "..") ++ split_on sep rest.
Proof. rewrite <- split_on_app. now rewrite append_assoc. Qed.

(** X19. The id of a get-by-id call is not confined to the resource of
    the method: for a base URL and an id that [urljoin] accepts
    ([url_modelled]), where the base URL has the scheme [http] or [https],
    [urljoin] resolves the [..] of an id that starts with [../], so the
    request goes to the URL of the path [/] followed by the rest of the
    id.  With the id [../organisations], for instance,
    [get_person_by_id] sends its GET to the URL of the list of
    organisations. *)
Theorem by_id_parent_segment_escapes
    (send : http_request -> net_result) (e : by_id_endpoint)
    (self : SS12000Client) (rest : string)
    (expand expand_reference_names : pyval) :
  url_modelled (base_url self) = true ->
  url_modelled rest = true ->
  base_url self <> "" ->
  In (u_scheme (urlparse (base_url self) "")) ["http"; "https"] ->
  String.prefix "/" rest = false ->
  map rq_url
    (outgoing
       (snd (call_by_id send e self ("../" +:+ rest) expand
               expand_reference_names)))
  = [urljoin (base_url self) ("/" +:+ rest)].
Proof.
  intros _ _ Hb Hs Hrest.
  assert (Hrel : str_in (u_scheme (urlparse (base_url self) ""))
                   uses_relative = true)
    by (destruct Hs as [<-|[<-|[]]]; reflexivity).
  assert (Hroot : String.prefix "//" ("/" +:+ rest) = false).
  { change ("/" +:+ rest) with (String "/" rest). cbn [String.prefix].
    destruct (ascii_dec "/" "/"); [exact Hrest | reflexivity]. }
  assert (Hslash : String.prefix "/" ("/" +:+ rest) = true).
  { change ("/" +:+ rest) with (String "/" rest). cbn [String.prefix].
    destruct (ascii_dec "/" "/"); [now destruct rest | congruence]. }
  rewrite (urljoin_rooted_path _ ("/" +:+ rest) Hb Hslash Hroot).
  cbv zeta. rewrite Hrel.
  change ("/" +:+ rest) with ("" +:+ String "/" rest).
  rewrite split_on_app.
  destruct e; cbn [call_by_id]; autounfold with client_methods;
    rewrite _request_outgoing; simpl map; f_equal;
    (rewrite urljoin_rooted_path; [|assumption|reflexivity|reflexivity]);
    cbv zeta; rewrite Hrel;
    change ("../" +:+ rest) with (".." +:+ String "/" rest);
    rewrite split_on_parent;
    (destruct (split_on "/" rest) as [|h t] eqn:Hsplit;
     [now apply split_on_nonempty in Hsplit|]);
    reflexivity.
Qed.

Lemma by_id_parent_segment_escapes_witness :
  map rq_url
    (outgoing
       (snd (call_by_id (fun _ => NoResponse) Get_person_by_id
               {| base_url := "https://some.server.se/v2.0"; headers := [] |}
               "../organisations" PNone (PBool false))))
  = ["https://some.server.se/organisations"].
Proof.
  refine (by_id_parent_segment_escapes (fun _ => NoResponse)
            Get_person_by_id
            {| base_url := "https://some.server.se/v2.0"; headers := [] |}
            "organisations" PNone (PBool false) _ _ _ _ _).
  - reflexivity.
  - reflexivity.
  - discriminate.
  - simpl. tauto.
  - reflexivity.
Defined.

(** ** Instances *)

Lemma request_returns_iff_witness :
  fst (_request
         (fun _ => Responded {| status_code := 302; text := "[]";
                                json := Some (PList []) |})
         {| base_url := "https://some.server.se/v2.0"; headers := [] |}
         "GET" "/persons" (Some []) None)
  = Returned (PList []).
Proof.
  apply (proj2 (request_returns_iff _ _ _ _ _ _ _)).
  eexists. split; [reflexivity|]. simpl. split; [lia|].
  right. split; [discriminate | reflexivity].
Defined.


